(** * ContentExtractor (o1_code.py): a shallow embedding and its properties

    The development follows the Python class [ContentExtractor]:
    content-based file classification, one text-extraction routine per
    type, the directory walk of [get_all_docs_as_text] and the time-bounded
    cache placed around it by the [filecache] decorator.

    Python values are modelled as follows.
    - [str] is [string]; file contents are [list Byte.byte].
    - A raised exception is a value [Raise e]; a call that may raise has a
      [result] type, and code that also touches temporary storage or the
      cache runs in the state-and-error monad [M].
    - A [dict] from file name to text is a [gmap string string].
    - Third-party libraries (libmagic, pdf2image, PIL, pytesseract,
      python-docx, pandas) are the fields of the class [Collaborators]. *)

From Stdlib Require Import Ascii String DecimalString DecimalNat ZArith Lia.
From stdpp Require Import gmap strings list fin_maps infinite.

Local Open Scope Z_scope.
Local Open Scope nat_scope.

(** ** Exceptions and results *)

Record exn := mk_exn { exn_class : string; exn_msg : string }.

Definition Exception (msg : string) : exn := mk_exn "Exception" msg.
Definition AttributeError (msg : string) : exn := mk_exn "AttributeError" msg.
Definition IsADirectoryError (msg : string) : exn := mk_exn "IsADirectoryError" msg.

Inductive result (A : Type) : Type :=
  | Ok (a : A)
  | Raise (e : exn).
Arguments Ok {A} a.
Arguments Raise {A} e.

Global Instance result_ret : MRet result := λ A a, Ok a.
Global Instance result_bind : MBind result := λ A B f r,
  match r with
  | Ok a => f a
  | Raise e => Raise e
  end.

(** ** Python string operations *)

(** The newline character, as a string. *)
Definition nl : string := String (ascii_of_nat 10) EmptyString.

(** [needle in hay]. *)
Fixpoint contains (needle hay : string) : bool :=
  String.prefix needle hay ||
  match hay with
  | EmptyString => false
  | String _ rest => contains needle rest
  end.

(** [str.lower()] on the ASCII range; no character outside it lowers to a
    letter of "store". *)
Definition lower_ascii (c : ascii) : ascii :=
  let n := nat_of_ascii c in
  if (65 <=? n) && (n <=? 90) then ascii_of_nat (n + 32) else c.

Fixpoint lower (s : string) : string :=
  match s with
  | EmptyString => EmptyString
  | String c rest => String (lower_ascii c) (lower rest)
  end.

(** [sep.join(parts)]. *)
Definition join (sep : string) (parts : list string) : string :=
  String.concat sep parts.

(** [f"{n}"] for a non-negative [int]. *)
Definition str_of_nat (n : nat) : string :=
  NilZero.string_of_uint (Nat.to_uint n).

(** [fnmatch] restricted to literal characters, [?] and [*]; pathlib
    matches one path component against one pattern component with it. *)
Fixpoint fnmatch (pat : string) : string → bool :=
  match pat with
  | EmptyString => λ name, match name with EmptyString => true | _ => false end
  | String "*" pat' =>
      fix star (name : string) : bool :=
        fnmatch pat' name ||
        match name with
        | EmptyString => false
        | String _ rest => star rest
        end
  | String "?" pat' => λ name,
      match name with
      | EmptyString => false
      | String _ rest => fnmatch pat' rest
      end
  | String c pat' => λ name,
      match name with
      | EmptyString => false
      | String d rest => Ascii.eqb c d && fnmatch pat' rest
      end
  end.

(** ** Paths *)

(** A [pathlib.Path]: absolute or relative, and its components. *)
Record Path := mk_path { is_absolute : bool; parts : list string }.

(** [str(p)]. *)
Definition path_str (p : Path) : string :=
  match is_absolute p, parts p with
  | false, [] => "."
  | false, ps => join "/" ps
  | true, ps => "/" +:+ join "/" ps
  end.

(** [p.name]. *)
Definition path_name (p : Path) : string := List.last (parts p) "".

(** [p / child]. *)
Definition path_child (p : Path) (child : string) : Path :=
  mk_path (is_absolute p) (parts p ++ [child]).

(** ** The document tree *)

Definition bytes := list Byte.byte.

(** What the file system holds at a path: a regular file with its content
    or a directory with its entries in [scandir] order. *)
#[warnings="-register-all"]
Inductive node :=
  | File (content : bytes)
  | Dir (entries : list (string * node)).

(** A path together with what it resolves to. *)
Definition FileRef : Type := Path * node.
Definition ref_path (f : FileRef) : Path := fst f.
Definition ref_name (f : FileRef) : string := path_name (fst f).

Definition read_bytes (f : FileRef) : result bytes :=
  match snd f with
  | File content => Ok content
  | Dir _ =>
      Raise (IsADirectoryError
               ("[Errno 21] Is a directory: '" +:+ path_str (ref_path f) +:+ "'"))
  end.

(** ** Collaborators

    The third-party calls of the module, as functions of what they read.
    [magic_from_buffer] is libmagic's media type of a content;
    [convert_from_path] is pdf2image's rasterizer at a given dpi;
    [save_png] is [Image.save(_, "PNG")] up to the bytes written;
    [Image_open] decodes the bytes of an image file; [image_to_string] is
    pytesseract; [Document] gives the paragraph texts of a DOCX in document
    order; [ExcelFile], [sheet_names], [read_excel], [read_csv] and
    [to_string] (for [df.to_string(index=False)]) are pandas. *)
Class Collaborators := {
  Image : Type;
  DataFrame : Type;
  Workbook : Type;
  magic_from_buffer : bytes → string;
  convert_from_path : bytes → nat → result (list Image);
  save_png : Image → result bytes;
  Image_open : bytes → result Image;
  image_to_string : Image → result string;
  Document : bytes → result (list string);
  ExcelFile : bytes → result Workbook;
  sheet_names : Workbook → list string;
  read_excel : Workbook → string → result DataFrame;
  read_csv : bytes → result DataFrame;
  to_string : DataFrame → string
}.

(** ** State: temporary storage and the cache *)

(** The result of one extraction run: file name to extracted text. *)
Abbreviation Dict := (gmap string string).

(** Directories made by [TemporaryDirectory()], each identified by the
    suffix [mkdtemp] drew for it, with the files written into them. *)
Abbreviation TmpStore := (gmap nat (gmap string bytes)).

(** The instance: [self.dir]. *)
Record ContentExtractor := mk_extractor { dir : option Path }.

(** [ContentExtractor.__init__]. *)
Definition init (_dir : option Path) : ContentExtractor :=
  match _dir with
  | None => mk_extractor None
  | Some d => mk_extractor (Some d)
  end.

(** The cache key of a call of the decorated method: the pickled
    arguments, [self] included. *)
Abbreviation Key := (option Path * option Path)%type.

Definition key_of (self : ContentExtractor) (_dir : option Path) : Key :=
  (dir self, _dir).

Global Instance Path_eq_dec : EqDecision Path.
Proof. solve_decision. Defined.

Global Instance Path_countable : Countable Path.
Proof.
  apply (inj_countable' (λ p, (is_absolute p, parts p))
                        (λ t, mk_path (fst t) (snd t))).
  by intros [].
Defined.

(** A cache entry: the time it was stored and the stored result. *)
Record World := mk_world {
  tmp : TmpStore;
  cache : gmap Key (Z * Dict)
}.

Definition with_tmp (t : TmpStore) (w : World) : World :=
  mk_world t (cache w).
Definition with_cache (c : gmap Key (Z * Dict)) (w : World) : World :=
  mk_world (tmp w) c.

(** ** The monad of state and exceptions *)

Definition M (A : Type) : Type := World → result A * World.

Global Instance M_ret : MRet M := λ A a w, (Ok a, w).
Global Instance M_bind : MBind M := λ A B f m w,
  match m w with
  | (Ok a, w') => f a w'
  | (Raise e, w') => (Raise e, w')
  end.

Definition lift {A} (r : result A) : M A := λ w, (r, w).
Definition raise {A} (e : exn) : M A := λ w, (Raise e, w).
Definition get_world : M World := λ w, (Ok w, w).
Definition put_world (w' : World) : M unit := λ _, (Ok tt, w').

(** [for x in xs: acc = body(acc, x)], leaving the loop at the first
    exception. *)
Fixpoint for_each {A S} (body : S → A → M S) (acc : S) (xs : list A) : M S :=
  match xs with
  | [] => mret acc
  | x :: rest => acc' ← body acc x; for_each body acc' rest
  end.

(** [enumerate(xs)]. *)
Definition enumerate {A} (xs : list A) : list (nat * A) :=
  zip (seq 0 (length xs)) xs.

(** [with TemporaryDirectory() as tmp_dir: body]: a fresh directory is
    made, and removed with all it holds when the block is left, by its end
    or by an exception. *)
Definition with_TemporaryDirectory {A} (body : nat → M A) : M A := λ w,
  let tmp_dir := fresh (dom (tmp w)) in
  let '(r, w') := body tmp_dir (with_tmp (<[tmp_dir := ∅]> (tmp w)) w) in
  (r, with_tmp (delete tmp_dir (tmp w')) w').

(** Writing and reading a file of a temporary directory. *)
Definition write_file (d : nat) (name : string) (data : bytes) : M unit := λ w,
  match tmp w !! d with
  | Some files => (Ok tt, with_tmp (<[d := <[name := data]> files]> (tmp w)) w)
  | None => (Raise (mk_exn "FileNotFoundError" name), w)
  end.

Definition read_file (d : nat) (name : string) : M bytes := λ w,
  match tmp w !! d ≫= (λ files, files !! name) with
  | Some data => (Ok data, w)
  | None => (Raise (mk_exn "FileNotFoundError" name), w)
  end.

(** ** ContentExtractor *)

Section Extractor.
Context `{C : Collaborators}.

(** The type tags, as the class attributes give them. *)
Definition PDF : string := "PDF".
Definition IMAGE : string := "Image".
Definition DOCX : string := "DOCX".
Definition TXT : string := "TXT".
Definition EXCEL : string := "EXCEL".
Definition CSV : string := "CSV".

(** [x in xs] for a list of strings. *)
Definition str_in (x : string) (xs : list string) : bool :=
  existsb (String.eqb x) xs.

(** [magic.Magic(mime=True).from_file(path)]: the file is opened, then
    libmagic looks at its content. *)
Definition from_file (file_path : FileRef) : result string :=
  content ← read_bytes file_path; mret (magic_from_buffer content).

Definition identify_file_type (file_path : FileRef) : result string :=
  mime_type ← from_file file_path;
  if String.eqb mime_type "application/pdf" then
    Ok PDF
  else if str_in mime_type ["image/jpeg"; "image/png"; "image/gif"; "image/tiff"] then
    Ok IMAGE
  else if String.eqb mime_type
            "application/vnd.openxmlformats-officedocument.wordprocessingml.document" then
    Ok DOCX
  else if String.eqb mime_type "text/plain" then
    Ok TXT
  else if str_in mime_type
            ["application/vnd.openxmlformats-officedocument.spreadsheetml.sheet";
             "application/vnd.ms-excel"] then
    Ok EXCEL
  else if str_in mime_type ["text/csv"; "application/csv"] then
    Ok CSV
  else
    Raise (Exception ("Unsupported file type: " +:+ ref_name file_path)).

Definition csv_to_text (csv_path : FileRef) : result string :=
  content ← read_bytes csv_path;
  df ← read_csv content;
  mret (to_string df).

Definition convert_image_to_text (img_path : FileRef) : result string :=
  content ← read_bytes img_path;
  image ← Image_open content;
  image_to_string image.

(** The body of the loop over the sheets: three appends to [text_output]. *)
Definition xlsx_sheet (excel_data : Workbook) (text_output : list string)
    (sheet_name : string) : result (list string) :=
  let text_output := text_output ++ ["Sheet: " +:+ sheet_name +:+ nl] in
  df ← read_excel excel_data sheet_name;
  let text_output := text_output ++ [to_string df] in
  mret (text_output ++ [nl +:+ nl]).

Fixpoint xlsx_loop (excel_data : Workbook) (text_output : list string)
    (names : list string) : result (list string) :=
  match names with
  | [] => mret text_output
  | sheet_name :: rest =>
      text_output' ← xlsx_sheet excel_data text_output sheet_name;
      xlsx_loop excel_data text_output' rest
  end.

Definition convert_xlsx_to_text (xlsx_path : FileRef) : result string :=
  content ← read_bytes xlsx_path;
  excel_data ← ExcelFile content;
  text_output ← xlsx_loop excel_data [] (sheet_names excel_data);
  mret (join nl text_output).

(** The body of the loop over the pages of a PDF. *)
Definition pdf_page (tmp_dir : nat) (extracted_text : string)
    (item : nat * Image) : M string :=
  let '(page_number, page) := item in
  let image_filename := "page_" +:+ str_of_nat (page_number + 1) +:+ ".png" in
  png ← lift (save_png page);
  _ ← write_file tmp_dir image_filename png;
  data ← read_file tmp_dir image_filename;
  image ← lift (Image_open data);
  text ← lift (image_to_string image);
  mret (extracted_text +:+ "--- Page " +:+ str_of_nat (page_number + 1) +:+ " ---" +:+ nl
          +:+ text +:+ nl).

Definition convert_pdf_to_text (pdf_path : FileRef) : M string :=
  content ← lift (read_bytes pdf_path);
  pages ← lift (convert_from_path content 300);
  let extracted_text := "" in
  with_TemporaryDirectory (λ tmp_dir,
    for_each (pdf_page tmp_dir) extracted_text (enumerate pages)).

Definition extract_text_from_docx (file_path : FileRef) : result string :=
  content ← read_bytes file_path;
  paragraphs ← Document content;
  mret (join nl paragraphs).

(** The body of the loop of [get_text_from_docs]; the two calls of the
    logger are left out. *)
Definition process_file (file_content_dict : Dict) (file : FileRef) : M Dict :=
  file_type ← lift (identify_file_type file);
  if String.eqb file_type PDF then
    text ← convert_pdf_to_text file;
    mret (<[ref_name file := text]> file_content_dict)
  else if String.eqb file_type IMAGE then
    text ← lift (convert_image_to_text file);
    mret (<[ref_name file := text]> file_content_dict)
  else if String.eqb file_type DOCX then
    text ← lift (extract_text_from_docx file);
    mret (<[ref_name file := text]> file_content_dict)
  else if String.eqb file_type EXCEL then
    text ← lift (convert_xlsx_to_text file);
    mret (<[ref_name file := text]> file_content_dict)
  else if String.eqb file_type CSV then
    text ← lift (csv_to_text file);
    mret (<[ref_name file := text]> file_content_dict)
  else
    raise (Exception ("Unsupported file type: " +:+ file_type)).

Definition get_text_from_docs (all_files : list FileRef) : M Dict :=
  for_each process_file ∅ all_files.

End Extractor.

(** ** The directory walk *)

(** The file system as the calls below see it: what a path resolves to. *)
Definition FileSystem : Type := Path → option node.

(** The entries of one directory whose name matches the pattern. *)
Definition select_wildcard (pat : string) (here : Path)
    (entries : list (string * node)) : list FileRef :=
  map (λ e, (path_child here (fst e), snd e))
      (List.filter (λ e, fnmatch pat (fst e)) entries).

(** [Path.rglob(pat)] below a node: the matching entries of the directory
    itself, then those of each sub-directory, recursively. Files and
    directories are both yielded when their name matches. *)
Fixpoint rglob_from (pat : string) (here : Path) (n : node) : list FileRef :=
  match n with
  | File _ => []
  | Dir entries =>
      select_wildcard pat here entries ++
      (fix subdirs (es : list (string * node)) : list FileRef :=
         match es with
         | [] => []
         | e :: rest =>
             rglob_from pat (path_child here (fst e)) (snd e) ++ subdirs rest
         end) entries
  end.

Definition rglob (fs : FileSystem) (d : Path) (pat : string) : list FileRef :=
  match fs d with
  | Some n => rglob_from pat d n
  | None => []
  end.

(** The list comprehension of [get_all_docs_as_text]. *)
Definition sample_files (fs : FileSystem) (dir_to_use : Path) : list FileRef :=
  let all_files := rglob fs dir_to_use "*.*" in
  List.filter (λ i, negb (contains "store" (lower (path_str (ref_path i)))))
              all_files.

Section Corpus.
Context `{C : Collaborators}.

(** The method before decoration. *)
Definition get_all_docs_as_text_body (fs : FileSystem)
    (self : ContentExtractor) (_dir : option Path) : M Dict :=
  let dir_to_use :=
    match _dir with
    | Some d => Some d
    | None => dir self
    end in
  match dir_to_use with
  | None => raise (AttributeError "'NoneType' object has no attribute 'rglob'")
  | Some d => get_text_from_docs (sample_files fs d)
  end.

(** The two readings of [time.time()] a call of a decorated function may
    make, in seconds: when it looks the key up and when it stores. *)
Record Clock := mk_clock { at_lookup : Z; at_store : Z }.

(** The lookup of the decorator: the data of an entry of the key that is
    younger than [seconds_of_validity] at the time [now]. *)
Definition lookup_valid (seconds_of_validity now : Z)
    (db : gmap Key (Z * Dict)) (key : Key) : option Dict :=
  match db !! key with
  | Some rv =>
      if bool_decide (now - fst rv < seconds_of_validity)%Z
      then Some (snd rv) else None
  | None => None
  end.

(** [filecache.filecache(seconds_of_validity)] around a method: a valid
    entry of the key is returned as it is; otherwise the function is
    called, and what it returns is stored under the key with the time of
    storing. An exception of the function leaves the cache as it was. *)
Definition filecache (seconds_of_validity : Z)
    (function : ContentExtractor → option Path → M Dict)
    (clock : Clock) (self : ContentExtractor) (_dir : option Path) : M Dict :=
  let key := key_of self _dir in
  w ← get_world;
  match lookup_valid seconds_of_validity (at_lookup clock) (cache w) key with
  | Some data => mret data
  | None =>
      retval ← function self _dir;
      w' ← get_world;
      _ ← put_world (with_cache (<[key := (at_store clock, retval)]> (cache w')) w');
      mret retval
  end.

(** [ContentExtractor.get_all_docs_as_text], as decorated. *)
Definition get_all_docs_as_text (fs : FileSystem) :
    Clock → ContentExtractor → option Path → M Dict :=
  filecache (60 * 60) (get_all_docs_as_text_body fs).

End Corpus.

(** The worlds the program can be in: it starts with an empty cache, and
    the cache changes only through calls of the decorated method. *)
Inductive reachable `{C : Collaborators} : World → Prop :=
  | reach_start (t : TmpStore) : reachable (mk_world t ∅)
  | reach_call fs clock self _dir w :
      reachable w →
      reachable (snd (get_all_docs_as_text fs clock self _dir w)).

(** ** Definitions used to state the properties *)

(** The type tags of the specification and the attribute each one is in
    the class. *)
Inductive FileTypeTag :=
  | TagPDF | TagIMAGE | TagWORD_DOCUMENT | TagPLAIN_TEXT | TagSPREADSHEET | TagCSV.

Definition tag_attr (t : FileTypeTag) : string :=
  match t with
  | TagPDF => PDF
  | TagIMAGE => IMAGE
  | TagWORD_DOCUMENT => DOCX
  | TagPLAIN_TEXT => TXT
  | TagSPREADSHEET => EXCEL
  | TagCSV => CSV
  end.

(** The table of the specification: media type to tag. *)
Definition documented_table : list (string * FileTypeTag) :=
  [ ("application/pdf", TagPDF);
    ("image/jpeg", TagIMAGE); ("image/png", TagIMAGE);
    ("image/gif", TagIMAGE); ("image/tiff", TagIMAGE);
    ("application/vnd.openxmlformats-officedocument.wordprocessingml.document",
     TagWORD_DOCUMENT);
    ("text/plain", TagPLAIN_TEXT);
    ("application/vnd.openxmlformats-officedocument.spreadsheetml.sheet",
     TagSPREADSHEET);
    ("application/vnd.ms-excel", TagSPREADSHEET);
    ("text/csv", TagCSV); ("application/csv", TagCSV) ].

Definition documented_tag (mime_type : string) : option FileTypeTag :=
  snd <$> List.find (λ row, String.eqb (fst row) mime_type) documented_table.

(** Everything below a node, files and directories, with its path. *)
Fixpoint walk (here : Path) (n : node) : list FileRef :=
  match n with
  | File _ => []
  | Dir entries =>
      (fix below (es : list (string * node)) : list FileRef :=
         match es with
         | [] => []
         | e :: rest =>
             (path_child here (fst e), snd e)
               :: walk (path_child here (fst e)) (snd e) ++ below rest
         end) entries
  end.

Definition walk_fs (fs : FileSystem) (d : Path) : list FileRef :=
  match fs d with
  | Some n => walk d n
  | None => []
  end.

Definition is_file (f : FileRef) : bool :=
  match snd f with
  | File _ => true
  | Dir _ => false
  end.

(** Induction on a tree, with the property known of the entries. *)
Fixpoint node_induction (P : node → Prop)
    (Hfile : ∀ content, P (File content))
    (Hdir : ∀ entries, Forall (λ e, P (snd e)) entries → P (Dir entries))
    (n : node) : P n :=
  match n with
  | File content => Hfile content
  | Dir entries =>
      Hdir entries
        ((fix all (es : list (string * node)) : Forall (λ e, P (snd e)) es :=
            match es with
            | [] => @List.Forall_nil _ (λ e, P (snd e))
            | e :: rest =>
                @List.Forall_cons _ (λ e, P (snd e)) e rest
                  (node_induction P Hfile Hdir (snd e)) (all rest)
            end) entries)
  end.

(** A computation that leaves every world as it found it. *)
Definition pure_like {A} (m : M A) : Prop := ∀ w, snd (m w) = w.

(** What a page of the loop over a PDF may change: the files of [tmp_dir] only. *)
Definition same_outside (d : nat) (w w' : World) : Prop :=
  cache w' = cache w ∧ delete d (tmp w') = delete d (tmp w).

(** The files of a directory tree that a run works on: those that have a
    dot in their name and no "store" in their path, whatever the case of
    its letters. *)
Definition selected (fs : FileSystem) (d : Path) (f : FileRef) : Prop :=
  f ∈ walk_fs fs d ∧
  contains "." (ref_name f) = true ∧
  contains "store" (lower (path_str (ref_path f))) = false.

Section Statements.
Context `{C : Collaborators}.

(** The OCR text of a page of a PDF: of the page as written to a PNG file
    and read back. *)
Definition page_ocr (page : Image) : result string :=
  png ← save_png page;
  image ← Image_open png;
  image_to_string image.

(** The block of the output of [convert_pdf_to_text] for the page of
    index [i] (from 0) whose OCR text is [text]. *)
Definition page_block (i : nat) (text : string) : string :=
  "--- Page " +:+ str_of_nat (i + 1) +:+ " ---" +:+ nl +:+ text +:+ nl.

(** The strings of a list put one after the other. *)
Definition concat_all (blocks : list string) : string :=
  foldr String.append "" blocks.


(** Classification and extraction of one file: the text that
    [process_file] stores under the name of the file. *)
Definition extract_text (file : FileRef) : M string :=
  file_type ← lift (identify_file_type file);
  if String.eqb file_type PDF then convert_pdf_to_text file
  else if String.eqb file_type IMAGE then lift (convert_image_to_text file)
  else if String.eqb file_type DOCX then lift (extract_text_from_docx file)
  else if String.eqb file_type EXCEL then lift (convert_xlsx_to_text file)
  else if String.eqb file_type CSV then lift (csv_to_text file)
  else raise (Exception ("Unsupported file type: " +:+ file_type)).

End Statements.

(** ** Test doubles

    Small stand-ins for the collaborators, used to run the definitions on
    concrete inputs. A file's content is read as text: its first line
    decides the media type, the other lines are its pages, paragraphs,
    sheets or rows. *)
Module Stub.

Definition text_of (content : bytes) : string := string_of_list_byte content.
Definition bytes_of (s : string) : bytes := list_byte_of_string s.

(** The pieces of [s] between occurrences of the character [sep]. *)
Fixpoint split_on (sep : ascii) (s : string) : list string :=
  match s with
  | EmptyString => [EmptyString]
  | String c rest =>
      if Ascii.eqb c sep then EmptyString :: split_on sep rest
      else match split_on sep rest with
           | [] => [String c EmptyString]
           | piece :: pieces => String c piece :: pieces
           end
  end.

Definition lines (content : bytes) : list string :=
  split_on (ascii_of_nat 10) (text_of content).

Definition body (content : bytes) : list string := List.tl (lines content).

Definition sniff (content : bytes) : string :=
  let first := List.hd "" (lines content) in
  if String.eqb first "%PDF" then "application/pdf"
  else if String.eqb first "PNG" then "image/png"
  else if String.eqb first "DOCX" then
    "application/vnd.openxmlformats-officedocument.wordprocessingml.document"
  else if String.eqb first "XLSX" then
    "application/vnd.openxmlformats-officedocument.spreadsheetml.sheet"
  else if String.eqb first "PK" then "application/zip"
  else if contains "," first then "text/csv"
  else "text/plain".

(** A sheet is a line [name=table]. *)
Definition sheet_of (line : string) : string * string :=
  match split_on "=" line with
  | name :: table :: _ => (name, table)
  | _ => (line, "")
  end.

Definition fields (row : string) : nat := length (split_on "," row).

(** Rows of unequal width do not parse. *)
Definition parse_csv (content : bytes) : result string :=
  match lines content with
  | [] => Raise (mk_exn "EmptyDataError" "No columns to parse from file")
  | header :: rows =>
      if forallb (λ row, fields row =? fields header) rows
      then Ok (join nl (header :: rows))
      else Raise (mk_exn "ParserError" "Error tokenizing data. C error: Expected fields")
  end.

Definition open_image (content : bytes) : result string :=
  match lines content with
  | "PNG" :: rest => Ok (join nl rest)
  | _ => Raise (mk_exn "UnidentifiedImageError" "cannot identify image file")
  end.

Definition lookup_sheet (wb : list (string * string)) (name : string)
    : result string :=
  match List.find (λ s, String.eqb (fst s) name) wb with
  | Some s => Ok (snd s)
  | None => Raise (mk_exn "ValueError" ("Worksheet named '" +:+ name +:+ "' not found"))
  end.

Definition collaborators : Collaborators := {|
  Image := string;
  DataFrame := string;
  Workbook := list (string * string);
  magic_from_buffer := sniff;
  convert_from_path := λ content _, Ok (body content);
  save_png := λ page, Ok (bytes_of ("PNG" +:+ nl +:+ page));
  Image_open := open_image;
  image_to_string := λ image, Ok image;
  Document := λ content, Ok (body content);
  ExcelFile := λ content, Ok (map sheet_of (body content));
  sheet_names := map fst;
  read_excel := lookup_sheet;
  read_csv := parse_csv;
  to_string := λ df, df
|}.

(** A file system holding one directory tree. *)
Definition mount (d : Path) (tree : node) : FileSystem :=
  λ p, if decide (p = d) then Some tree else None.

Definition empty_world : World := mk_world ∅ ∅.

(** Sample documents and directories. *)
Definition text_file (s : string) : node := File (bytes_of s).

Definition data : Path := mk_path true ["data"].

Definition notes : FileRef :=
  (path_child data "notes.txt", text_file "remember the milk").

Definition report : FileRef :=
  (path_child data "report.csv",
   text_file ("id,name" +:+ nl +:+ "1,ann" +:+ nl +:+ "2,bob")).

Definition ledger : FileRef :=
  (path_child data "ledger.csv",
   text_file ("id,name" +:+ nl +:+ "1,ann,extra")).

Definition scan : FileRef :=
  (path_child data "scan.pdf",
   text_file ("%PDF" +:+ nl +:+ "first page" +:+ nl +:+ "second page")).


Definition readme : FileRef :=
  (path_child data "README", text_file ("id,name" +:+ nl +:+ "7,eve")).

Definition late : FileRef :=
  (path_child data "late.csv", text_file ("id,name" +:+ nl +:+ "9,dan")).

Definition entry (f : FileRef) : string * node := (ref_name f, snd f).

Definition tree_with_readme : node := Dir [entry readme; entry report].
Definition tree_one_more : node := Dir [entry readme; entry report; entry late].
Definition tree_with_ledger : node := Dir [entry report; entry ledger; entry scan].

Definition scan_pages : list string := ["first page"; "second page"].



Definition report_text : string :=
  "id,name" +:+ nl +:+ "1,ann" +:+ nl +:+ "2,bob".

Definition report_only : Dict := {[ "report.csv" := report_text ]}.

Definition parser_error : exn :=
  mk_exn "ParserError" "Error tokenizing data. C error: Expected fields".

End Stub.

(** Calls of the decorated method under keys other than [key], one after
    the other, from a world to a world. *)
Inductive calls_of_other_keys `{C : Collaborators} (key : Key)
    : World → World → Prop :=
  | other_none w : calls_of_other_keys key w w
  | other_call fs clock self _dir w w' :
      key_of self _dir ≠ key →
      calls_of_other_keys key (snd (get_all_docs_as_text fs clock self _dir w)) w' →
      calls_of_other_keys key w w'.

(** ** The log of a run

    [get_text_from_docs] calls [logger.info] before and after the work on
    each file. The messages given to the logger are kept in a list, next
    to the world. *)

Definition ML (A : Type) : Type :=
  World * list string → result A * (World * list string).

Global Instance ML_ret : MRet ML := λ A a s, (Ok a, s).
Global Instance ML_bind : MBind ML := λ A B f m s,
  match m s with
  | (Ok a, s') => f a s'
  | (Raise e, s') => (Raise e, s')
  end.

(** [logger.info(message)]. *)
Definition logger_info (message : string) : ML unit := λ s,
  (Ok tt, (fst s, snd s ++ [message])).

(** A computation that does not log. *)
Definition unlogged {A} (m : M A) : ML A := λ s,
  let '(r, w') := m (fst s) in (r, (w', snd s)).

Fixpoint for_each_logged {A S} (body : S → A → ML S) (acc : S) (xs : list A)
    : ML S :=
  match xs with
  | [] => mret acc
  | x :: rest => acc' ← body acc x; for_each_logged body acc' rest
  end.

Section Logged.
Context `{C : Collaborators}.

(** The body of the loop of [get_text_from_docs], with its two calls of
    the logger around the work of [process_file]. *)
Definition process_file_logged (file_content_dict : Dict) (file : FileRef)
    : ML Dict :=
  _ ← logger_info ("Working on: " +:+ ref_name file);
  file_content_dict' ← unlogged (process_file file_content_dict file);
  _ ← logger_info ("Done: " +:+ ref_name file);
  mret file_content_dict'.

Definition get_text_from_docs_logged (all_files : list FileRef) : ML Dict :=
  for_each_logged process_file_logged ∅ all_files.

End Logged.

(** The two messages of a file that was worked on to the end. *)
Definition log_of (f : FileRef) : list string :=
  ["Working on: " +:+ ref_name f; "Done: " +:+ ref_name f].

(** ** Python values of the audit runner *)

(** The double quote, as a string. *)
Definition dq : string := String (ascii_of_nat 34) EmptyString.

Definition IndexError (msg : string) : exn := mk_exn "IndexError" msg.

(** [l[i]] for a list and an [int]: a negative index counts from the end. *)
Definition py_index {A} (l : list A) (i : Z) : result A :=
  let n := Z.of_nat (length l) in
  let j := if (i <? 0)%Z then (i + n)%Z else i in
  if ((0 <=? j) && (j <? n))%Z then
    match l !! Z.to_nat j with
    | Some x => Ok x
    | None => Raise (IndexError "list index out of range")
    end
  else Raise (IndexError "list index out of range").

(** The truth value of an [Optional[int]]: [None] and [0] are false. *)
Definition truthy (o : option Z) : bool :=
  match o with
  | None => false
  | Some i => negb (i =? 0)%Z
  end.

(** [f"{x}"] for a value that is a [str] or [None]. *)
Definition str_of_optional (o : option string) : string :=
  match o with
  | None => "None"
  | Some s => s
  end.

(** [s.split(sep)] for a separator of one character. *)
Fixpoint split (sep : ascii) (s : string) : list string :=
  match s with
  | EmptyString => [EmptyString]
  | String c rest =>
      if Ascii.eqb c sep then EmptyString :: split sep rest
      else match split sep rest with
           | [] => [String c EmptyString]
           | piece :: pieces => String c piece :: pieces
           end
  end.

(** The name of the image file of the page of index [page_number]. *)
Definition page_filename (page_number : nat) : string :=
  "page_" +:+ str_of_nat (page_number + 1) +:+ ".png".

(** ** The audit runner *)

Definition AUDITOR_PROMPT : string :=
  "You are a helpful compliance analyst tasked with taking a detailed test script and answering the questions step by step. " +:+ nl +:+
  "For each step you should provide and quote the exact evidence from the attached evidence and explain. " +:+ nl +:+
  "If you don't have enough evidence to come to a conclusion you should say " +:+ dq +:+ "I need more evidence in order to answer the question correctly" +:+ dq +:+ " " +:+ nl +:+
  "and continue on to the next question Do not hallucinate. ".

Definition MODEL : string := "o1-preview".

Definition DOCUMENT_AGGREGATOR_PROMPT : string :=
  "You are a helpful analyst. Your job is to take in a list of documents around a given compliance decision and then Go through each document individually and classify it by document type, Summary, Date, and what happened in document".

Definition CONVERSION_PROMPT_USING_O1 : string :=
  nl +:+
  "You are a helpful assistant tasked with taking an financial compliance auditing test script and converting it into a internal-facing programmatically executable routine optimized for an LLM. " +:+ nl +:+
  "The LLM using this routine will be tasked with reading the test script, and answering audit questions, and finding any exceptions or compliance violations." +:+ nl +:+
  nl +:+
  "Please follow these instructions:" +:+ nl +:+
  "1. **Review the financial compliance auditing test script carefully** to ensure every step is accounted for. It is crucial not to skip any steps or policies." +:+ nl +:+
  "2. **Organize the instructions into a logical, step-by-step order**, using the specified format." +:+ nl +:+
  "3. **Use the following format**:" +:+ nl +:+
  "   - **Main actions are numbered** (e.g., 1, 2, 3)." +:+ nl +:+
  "   - **Sub-actions are lettered** under their relevant main actions (e.g., 1a, 1b)." +:+ nl +:+
  "      **Sub-actions should start on new lines**" +:+ nl +:+
  "   - **Specify conditions using clear 'if...then...else' statements** (e.g., 'If the , then...')." +:+ nl +:+
  "   - **If you need more data respond with " +:+ dq +:+ "I need more data to make compliance decision" +:+ dq +:+ nl +:+
  "4. For every step give evidence from the provided documents and explain the reasoning of why you made that decision,  give a pass or fail, and certainty rate of how certain you are about the decision you made." +:+ nl +:+
  "   - **End with a final action for case resolution**: calling the `case_resolution` function should always be the final step." +:+ nl +:+
  "5. Note that the evidence might be redacting names, addresses, and other PII and take that into account when you do the decisioning." +:+ nl +:+
  nl +:+
  "**Important**: If at any point you are uncertain, respond with " +:+ dq +:+ "I don't know." +:+ dq +:+ nl +:+
  nl +:+
  "Please convert the financial compliance auditing test script into the formatted routine, ensuring it is easy to follow and execute programmatically." +:+ nl +:+
  nl.

(** The entries of a test script, raw and with its routine; the result of
    running one. The routine is [None] when its generation failed. *)
Record RawTestPolicies := mk_raw {
  raw_policy : string;
  raw_content : list string
}.

Record PolicyContentImproved := mk_improved {
  imp_policy : string;
  imp_content : list string;
  imp_routine : option string
}.

Record AuditResult := mk_audit {
  res_policy : string;
  res_routine : option string;
  res_execution : option string
}.

Record Message := mk_message { msg_role : string; msg_content : string }.

(** The chat endpoint and the formatting of Python values into a prompt.
    [chat_completions_create model messages] is
    [client.chat.completions.create(model=.., messages=..).choices[0].message.content];
    [str_of_docs] and [str_of_list] are [str] of the dictionary of documents
    and of a list of strings. *)
Class ChatClient := {
  Docs : Type;
  str_of_docs : Docs → string;
  str_of_list : list string → string;
  chat_completions_create : string → list Message → result (option string)
}.

Record O1AuditTestRunner := mk_runner {
  raw_test_policies : list RawTestPolicies
}.

Section Runner.
Context `{L : ChatClient}.

Definition audit_content (tests document : string) : string :=
  (nl +:+
   "                        ") +:+
  AUDITOR_PROMPT +:+
  (nl +:+
   nl +:+
   "                        TESTING INSTRUCTIONS: " +:+ nl +:+
   "                        ") +:+
  tests +:+
  (nl +:+
   nl +:+
   "                        POLICY:" +:+ nl +:+
   "                        ") +:+
  document +:+
  (nl +:+
   "                    ").

Definition conversion_content (policy : string) : string :=
  (nl +:+
   "                            ") +:+
  CONVERSION_PROMPT_USING_O1 +:+
  (nl +:+
   nl +:+
   "                            POLICY:" +:+ nl +:+
   "                            ") +:+
  policy +:+
  (nl +:+
   "                        ").

Definition classify_content (dispute_content_from_file : string) : string :=
  (nl +:+
   "                        ") +:+
  DOCUMENT_AGGREGATOR_PROMPT +:+
  (nl +:+
   nl +:+
   "                        DOCUMENTS:" +:+ nl +:+
   "                        ") +:+
  dispute_content_from_file +:+
  (nl +:+
   "                    ").

(** [try: return <call> except Exception: print(..)]: an exception of the
    call gives [None]. *)
Definition or_none (r : result (option string)) : option string :=
  match r with
  | Ok content => content
  | Raise _ => None
  end.

Definition run_audit (tests : option string) (document : Docs) : option string :=
  let messages :=
    [mk_message "user" (audit_content (str_of_optional tests) (str_of_docs document))] in
  or_none (chat_completions_create MODEL messages).

Definition generate_routine (policy : list string) : option string :=
  let messages :=
    [mk_message "user" (conversion_content (str_of_list policy))] in
  or_none (chat_completions_create MODEL messages).

Definition process_testing_script (test : RawTestPolicies) : PolicyContentImproved :=
  let routine := generate_routine (raw_content test) in
  mk_improved (raw_policy test) (raw_content test) routine.

(** [executor.map] gives the results in the order of its input. *)
Definition expand_query_using_o1 (self : O1AuditTestRunner)
    : list PolicyContentImproved :=
  map process_testing_script (raw_test_policies self).

Definition _classify_documents (dispute_content_from_file : Docs) : option string :=
  let messages :=
    [mk_message "user" (classify_content (str_of_docs dispute_content_from_file))] in
  or_none (chat_completions_create MODEL messages).

Definition run_testing_script (docs_to_audit : Docs)
    (single_test : PolicyContentImproved) : AuditResult :=
  let execution := run_audit (imp_routine single_test) docs_to_audit in
  mk_audit (imp_policy single_test) (imp_routine single_test) execution.

Definition main (self : O1AuditTestRunner) (docs_to_audit : Docs)
    (test_to_run : option Z)
    (expanded_policies : option (list PolicyContentImproved))
    : result (list AuditResult) :=
  let expanded_policies :=
    match expanded_policies with
    | None => expand_query_using_o1 self
    | Some given => given
    end in
  _tests ←
    (if truthy test_to_run then
       single ← py_index expanded_policies (default 0%Z test_to_run);
       mret [single]
     else mret expanded_policies);
  mret (map (run_testing_script docs_to_audit) _tests).

End Runner.

(** A chat endpoint for trying the runner: it answers with the number of
    characters of the prompt, and fails on a prompt that holds "FAIL". *)
Module StubChat.

Definition answer (model : string) (messages : list Message) : result (option string) :=
  match messages with
  | [m] =>
      if contains "FAIL" (msg_content m)
      then Raise (mk_exn "APIError" "endpoint unavailable")
      else Ok (Some (str_of_nat (String.length (msg_content m))))
  | _ => Raise (mk_exn "APIError" "bad request")
  end.

Definition client : ChatClient := {|
  Docs := list (string * string);
  str_of_docs := λ docs, join ", " (map (λ kv, fst kv +:+ ": " +:+ snd kv) docs);
  str_of_list := join ", ";
  chat_completions_create := answer
|}.

Definition policies : list PolicyContentImproved :=
  [ mk_improved "Indirect" ["1. notified?"] (Some "check E-Oscar");
    mk_improved "Direct" ["1. resolved?"] (Some "check dates, FAIL here");
    mk_improved "Adverse" ["2a. statement"] None ].

Definition docs : list (string * string) := [("Dispute.pdf", "text of the dispute")].

End StubChat.

(** More sample documents, and collaborators that can fail: OCR raises on
    an image that holds "smudge", and a sheet whose table is "corrupt"
    does not read. *)
Module Faulty.

Definition ocr (image : string) : result string :=
  if contains "smudge" image
  then Raise (mk_exn "TesseractError" "recognition failed")
  else Ok image.

Definition read_sheet (wb : list (string * string)) (name : string)
    : result string :=
  match Stub.lookup_sheet wb name with
  | Ok table =>
      if String.eqb table "corrupt"
      then Raise (mk_exn "ValueError" "cannot parse sheet")
      else Ok table
  | Raise e => Raise e
  end.

Definition collaborators : Collaborators := {|
  Image := string;
  DataFrame := string;
  Workbook := list (string * string);
  magic_from_buffer := Stub.sniff;
  convert_from_path := λ content _, Ok (Stub.body content);
  save_png := λ page, Ok (Stub.bytes_of ("PNG" +:+ nl +:+ page));
  Image_open := Stub.open_image;
  image_to_string := ocr;
  Document := λ content, Ok (Stub.body content);
  ExcelFile := λ content, Ok (map Stub.sheet_of (Stub.body content));
  sheet_names := map fst;
  read_excel := read_sheet;
  read_csv := Stub.parse_csv;
  to_string := λ df, df
|}.

Definition smudged : FileRef :=
  (path_child Stub.data "smudged.pdf",
   Stub.text_file ("%PDF" +:+ nl +:+ "first page" +:+ nl +:+ "a smudge"
                     +:+ nl +:+ "third page")).

Definition smudged_pages : list string := ["first page"; "a smudge"; "third page"].

Definition broken_book : FileRef :=
  (path_child Stub.data "broken.xlsx",
   Stub.text_file ("XLSX" +:+ nl +:+ "Zeta=1 2" +:+ nl +:+ "Alpha=corrupt"
                     +:+ nl +:+ "Omega=5 6")).

Definition broken_sheets : list (string * string) :=
  [("Zeta", "1 2"); ("Alpha", "corrupt"); ("Omega", "5 6")].

Definition letter : FileRef :=
  (path_child Stub.data "letter.docx",
   Stub.text_file ("DOCX" +:+ nl +:+ "Intro" +:+ nl +:+ "Body")).

Definition twin_a : FileRef :=
  (path_child (path_child Stub.data "a") "x.csv",
   Stub.text_file ("id,name" +:+ nl +:+ "1,ann")).

Definition twin_b : FileRef :=
  (path_child (path_child Stub.data "b") "x.csv",
   Stub.text_file ("id,name" +:+ nl +:+ "2,bob")).

Definition ds_store : FileRef :=
  (path_child Stub.data ".DS_Store", Stub.text_file "Bud1").

Definition release : FileRef := (path_child Stub.data "v1.0", Dir []).

Definition tree_with_ds_store : node :=
  Dir [Stub.entry ds_store; Stub.entry Stub.report].

Definition tree_with_release : node :=
  Dir [Stub.entry Stub.report; Stub.entry release].

Definition datastore : Path := mk_path true ["var"; "DataStore"].

Definition page_world : World := mk_world {[ 0 := ∅ ]} ∅.

Definition other : Path := mk_path true ["other"].

End Faulty.

(** ** Page markers *)

(** The marker line of the page numbered [N]. *)
Definition page_marker (N : nat) : string :=
  "--- Page " +:+ str_of_nat N +:+ " ---".

(** [int(s)] for a string of decimal digits. *)
Definition int_of_str (s : string) : option nat :=
  Nat.of_uint <$> NilZero.uint_of_string s.

(** How many of the lines are the line [x]. *)
Definition occurrences (x : string) (lines : list string) : nat :=
  length (List.filter (String.eqb x) lines).

(** Sample documents for the markers and for the age of a cache entry. *)
Module Edge.

Definition echo : FileRef :=
  (path_child Stub.data "echo.pdf",
   Stub.text_file ("%PDF" +:+ nl +:+ "--- Page 1 ---")).

Definition echo_text : string :=
  "--- Page 1 ---" +:+ nl +:+ "--- Page 1 ---" +:+ nl.

Definition scan_text : string :=
  "--- Page 1 ---" +:+ nl +:+ "first page" +:+ nl +:+
  "--- Page 2 ---" +:+ nl +:+ "second page" +:+ nl.

Definition late_text : string := "id,name" +:+ nl +:+ "9,dan".

Definition report_and_late : Dict :=
  {[ "report.csv" := Stub.report_text; "late.csv" := late_text ]}.

Definition after_first_call : World :=
  mk_world ∅ {[ (None, Some Stub.data) := (1%Z, Stub.report_only) ]}.

Definition after_third_call : World :=
  mk_world ∅ {[ (None, Some Stub.data) := (4001%Z, report_and_late) ]}.

End Edge.

(** * Properties *)

(** ** Strings *)

Lemma prefix_refl (s : string) : String.prefix s s = true.
Proof.
  induction s as [|c s IH]; simpl; [done|].
  destruct (ascii_dec c c); [done | congruence].
Qed.

Lemma contains_refl (s : string) : contains s s = true.
Proof. destruct s; cbn [contains]; by rewrite prefix_refl. Qed.

(** A string occurs in every string it ends. *)
Lemma contains_app_r (before s : string) : contains s (before +:+ s) = true.
Proof.
  induction before as [|c before IH]; simpl.
  - apply contains_refl.
  - rewrite IH. apply orb_true_r.
Qed.

(** The pattern of the walk selects the names that have a dot. *)
Lemma fnmatch_star_dot_star (name : string) :
  fnmatch "*.*" name = contains "." name.
Proof.
  assert (Hall : ∀ s, fnmatch "*" s = true).
  { intros s. induction s as [|a s IHs]; [reflexivity|].
    change (fnmatch "*" (String a s))
      with (fnmatch "" (String a s) || fnmatch "*" s).
    by rewrite IHs. }
  induction name as [|c name IH]; [reflexivity|].
  change (fnmatch "*.*" (String c name))
    with ((Ascii.eqb "." c && fnmatch "*" name) || fnmatch "*.*" name).
  rewrite IH, Hall, andb_true_r.
  change (contains "." (String c name))
    with (String.prefix "." (String c name) || contains "." name).
  f_equal. cbn [String.prefix].
  destruct (ascii_dec "." c) as [Heq|Hne].
  - rewrite <- Heq, Ascii.eqb_refl. by destruct name.
  - by apply Ascii.eqb_neq.
Qed.

(** ** Classification *)

Section Classification.
Context `{C : Collaborators}.

(** On a regular file, [identify_file_type] is the documented table applied
    to the media type of the content. *)
Lemma identify_file_type_file (p : Path) (content : bytes) :
  identify_file_type (p, File content) =
    match documented_tag (magic_from_buffer content) with
    | Some tag => Ok (tag_attr tag)
    | None => Raise (Exception ("Unsupported file type: " +:+ path_name p))
    end.
Proof.
  unfold identify_file_type, from_file, read_bytes, documented_tag,
    documented_table, str_in, ref_name.
  cbn [mbind mret result_bind result_ret snd fst existsb List.find].
  generalize (magic_from_buffer content) as m. intros m.
  rewrite !(String.eqb_sym m).
  repeat match goal with
         | |- context [String.eqb ?lit m] =>
             destruct (String.eqb lit m);
             cbn [orb fmap option_fmap option_map snd fst];
             [reflexivity|]
         end.
  reflexivity.
Qed.


(** C9: two files of the same content under different names are
    classified alike: both get the same tag, or both are refused, each
    with the exception of an unsupported type that differs only in the
    name of the file it reports. *)
Theorem identify_file_type_content_only (p1 p2 : Path) (content : bytes) :
  (∀ tag, identify_file_type (p1, File content) = Ok tag ↔
          identify_file_type (p2, File content) = Ok tag) ∧
  ((∃ e, identify_file_type (p1, File content) = Raise e) ↔
   (∃ e, identify_file_type (p2, File content) = Raise e)) ∧
  (∀ e1 e2,
     identify_file_type (p1, File content) = Raise e1 →
     identify_file_type (p2, File content) = Raise e2 →
     e1 = Exception ("Unsupported file type: " +:+ path_name p1) ∧
     e2 = Exception ("Unsupported file type: " +:+ path_name p2)).
Proof.
  rewrite !identify_file_type_file.
  destruct (documented_tag _) as [tag|].
  - split; [done|]. split; [|done]. split; intros [e He]; done.
  - split; [done|]. split; [split; eauto|].
    intros e1 e2 [= <-] [= <-]. done.
Qed.

End Classification.

(** ** The state monad *)

Lemma world_eta (w : World) : mk_world (tmp w) (cache w) = w.
Proof. by destruct w. Qed.

Lemma run_bind {A B} (m : M A) (k : A → M B) (w : World) :
  (m ≫= k) w =
    match m w with
    | (Ok a, w') => k a w'
    | (Raise e, w') => (Raise e, w')
    end.
Proof. reflexivity. Qed.

Lemma run_lift_bind {A B} (r : result A) (k : A → M B) (w : World) :
  (lift r ≫= k) w =
    match r with
    | Ok a => k a w
    | Raise e => (Raise e, w)
    end.
Proof. rewrite run_bind. unfold lift. by destruct r. Qed.

Lemma pure_like_lift {A} (r : result A) : pure_like (lift r).
Proof. by intros w. Qed.

Lemma pure_like_ret {A} (a : A) : pure_like (mret a).
Proof. by intros w. Qed.

Lemma pure_like_raise {A} (e : exn) : pure_like (@raise A e).
Proof. by intros w. Qed.

Lemma pure_like_bind {A B} (m : M A) (k : A → M B) :
  pure_like m → (∀ a, pure_like (k a)) → pure_like (m ≫= k).
Proof.
  intros Hm Hk w. rewrite run_bind.
  specialize (Hm w). destruct (m w) as [[a|e] w']; simpl in Hm; subst w'.
  - apply Hk.
  - reflexivity.
Qed.

Lemma pure_like_for_each {A S} (body : S → A → M S) (xs : list A) :
  (∀ acc x, pure_like (body acc x)) → ∀ acc, pure_like (for_each body acc xs).
Proof.
  intros Hbody. induction xs as [|x xs IH]; intros acc; simpl.
  - apply pure_like_ret.
  - apply pure_like_bind; [apply Hbody | apply IH].
Qed.

(** ** Temporary storage of the PDF routine *)

Section Pdf.
Context `{C : Collaborators}.

Lemma same_outside_refl d w : same_outside d w w.
Proof. by split. Qed.

Lemma same_outside_trans d w1 w2 w3 :
  same_outside d w1 w2 → same_outside d w2 w3 → same_outside d w1 w3.
Proof. intros [? ?] [? ?]. split; congruence. Qed.

Lemma pdf_page_outside d acc item w :
  same_outside d w (snd (pdf_page d acc item w)).
Proof.
  destruct item as [page_number page]. unfold pdf_page. cbv zeta.
  set (image_filename := String.append "page_" _).
  rewrite run_lift_bind. destruct (save_png page) as [png|e];
    [|apply same_outside_refl].
  rewrite run_bind. unfold write_file at 1.
  destruct (tmp w !! d) as [files|] eqn:Hd; [|apply same_outside_refl].
  rewrite run_bind. unfold read_file at 1. simpl tmp.
  rewrite lookup_insert_eq. simpl. rewrite lookup_insert_eq.
  assert (Hw : same_outside d w
                 (with_tmp (<[d:=<[image_filename:=png]> files]> (tmp w)) w)).
  { split; [reflexivity|]. simpl. by rewrite delete_insert_eq. }
  rewrite run_lift_bind. destruct (Image_open png) as [image|e]; [|exact Hw].
  rewrite run_lift_bind. destruct (image_to_string image); exact Hw.
Qed.

Lemma pdf_loop_outside d items : ∀ acc w,
  same_outside d w (snd (for_each (pdf_page d) acc items w)).
Proof.
  induction items as [|item items IH]; intros acc w; simpl.
  - apply same_outside_refl.
  - rewrite run_bind.
    pose proof (pdf_page_outside d acc item w) as H1.
    destruct (pdf_page d acc item w) as [[acc'|e] w1]; simpl in H1; [|exact H1].
    eapply same_outside_trans; [exact H1 | apply IH].
Qed.

Lemma with_TemporaryDirectory_pure {A} (body : nat → M A) :
  (∀ d w, same_outside d w (snd (body d w))) →
  pure_like (with_TemporaryDirectory body).
Proof.
  intros Hbody w. unfold with_TemporaryDirectory.
  set (d := fresh (dom (tmp w))).
  specialize (Hbody d (with_tmp (<[d:=∅]> (tmp w)) w)).
  destruct (body d _) as [r w']. simpl in *.
  destruct Hbody as [Hc Ht]. unfold with_tmp. rewrite Hc, Ht. simpl.
  rewrite delete_insert_eq, delete_id; [apply world_eta|].
  apply not_elem_of_dom, is_fresh.
Qed.

Lemma convert_pdf_to_text_pure (pdf_path : FileRef) :
  pure_like (convert_pdf_to_text pdf_path).
Proof.
  unfold convert_pdf_to_text.
  apply pure_like_bind; [apply pure_like_lift|]. intros content.
  apply pure_like_bind; [apply pure_like_lift|]. intros pages.
  apply with_TemporaryDirectory_pure. intros d w. apply pdf_loop_outside.
Qed.

(** C6: whatever a call of [convert_pdf_to_text] does, return a text or
    raise, temporary storage is afterwards exactly what it was before the
    call: the directory made for the page images is gone with every file
    written into it, and nothing else has changed. *)
Theorem convert_pdf_to_text_cleanup (pdf_path : FileRef) (w : World) :
  snd (convert_pdf_to_text pdf_path w) = w.
Proof. apply convert_pdf_to_text_pure. Qed.

End Pdf.

(** ** The text of a PDF and of a workbook *)

Lemma append_assoc (a b c : string) : (a +:+ b) +:+ c = a +:+ (b +:+ c).
Proof.
  induction a as [|x a IH]; [reflexivity|].
  change (String x ((a +:+ b) +:+ c) = String x (a +:+ b +:+ c)).
  by rewrite IH.
Qed.

Lemma append_empty_r (a : string) : a +:+ "" = a.
Proof.
  induction a as [|x a IH]; [reflexivity|].
  change (String x (a +:+ "") = String x a). by rewrite IH.
Qed.

Section Texts.
Context `{C : Collaborators}.

(** A page whose OCR text is [text] adds its block to the text so far and
    leaves the temporary directory in place. *)
Lemma pdf_page_text d acc page_number page text w files :
  page_ocr page = Ok text →
  tmp w !! d = Some files →
  ∃ w' files',
    pdf_page d acc (page_number, page) w
      = (Ok (acc +:+ page_block page_number text), w') ∧
    tmp w' !! d = Some files'.
Proof.
  intros Hocr Hd. unfold page_ocr in Hocr. unfold pdf_page. cbv zeta.
  set (image_filename := String.append "page_" _).
  destruct (save_png page) as [png|e] eqn:Hpng; [|done].
  cbn [mbind result_bind] in Hocr.
  destruct (Image_open png) as [image|e] eqn:Himg; [|done].
  cbn [mbind result_bind] in Hocr.
  rewrite run_lift_bind, run_bind. unfold write_file at 1. rewrite Hd.
  rewrite run_bind. unfold read_file at 1. simpl tmp.
  rewrite lookup_insert_eq. simpl. rewrite lookup_insert_eq.
  rewrite run_lift_bind, Himg, run_lift_bind, Hocr.
  eexists _, _. split; [reflexivity|]. simpl. apply lookup_insert_eq.
Qed.

Lemma pdf_loop_text d pages texts :
  Forall2 (λ page text, page_ocr page = Ok text) pages texts →
  ∀ k acc w files,
    tmp w !! d = Some files →
    fst (for_each (pdf_page d) acc (zip (seq k (length pages)) pages) w)
      = Ok (acc +:+ concat_all (imap (λ i, page_block (k + i)) texts)).
Proof.
  induction 1 as [|page text pages texts Hocr _ IH]; intros k acc w files Hd.
  - simpl. unfold concat_all. simpl. by rewrite append_empty_r.
  - cbn [length seq zip_with for_each]. rewrite run_bind.
    destruct (pdf_page_text d acc k page text w files Hocr Hd)
      as (w' & files' & -> & Hd').
    rewrite (IH (S k) _ w' files' Hd').
    f_equal. rewrite append_assoc. f_equal. unfold concat_all. simpl.
    rewrite Nat.add_0_r. f_equal. f_equal.
    apply imap_ext. intros i x _. simpl. f_equal. lia.
Qed.

(** When a PDF rasterizes to pages that OCR gives a text for each,
    [convert_pdf_to_text] returns the blocks of the pages put one after
    the other, in page order. *)
Lemma convert_pdf_to_text_blocks (pdf_path : FileRef) (content : bytes)
    (pages : list Image) (texts : list string) (w : World) :
  read_bytes pdf_path = Ok content →
  convert_from_path content 300 = Ok pages →
  Forall2 (λ page text, page_ocr page = Ok text) pages texts →
  fst (convert_pdf_to_text pdf_path w) = Ok (concat_all (imap page_block texts)).
Proof.
  intros Hread Hpages Hocr. unfold convert_pdf_to_text.
  rewrite run_lift_bind, Hread, run_lift_bind, Hpages.
  unfold with_TemporaryDirectory, enumerate.
  set (d := fresh (dom (tmp w))).
  set (w0 := with_tmp (<[d:=∅]> (tmp w)) w).
  pose proof (pdf_loop_text d pages texts Hocr 0 "" w0 ∅) as Hloop.
  destruct (for_each _ _ _ w0) as [r w1]. simpl in *.
  apply Hloop. apply lookup_insert_eq.
Qed.



End Texts.

(** ** The walk *)

Lemma path_name_child (p : Path) (child : string) :
  path_name (path_child p child) = child.
Proof. unfold path_name, path_child. simpl. apply List.last_last. Qed.

Lemma rglob_from_dir pat here entries :
  rglob_from pat here (Dir entries) =
    select_wildcard pat here entries ++
    flat_map (λ e, rglob_from pat (path_child here (fst e)) (snd e)) entries.
Proof.
  cbn [rglob_from]. f_equal.
Qed.

Lemma walk_dir here entries :
  walk here (Dir entries) =
    flat_map (λ e, (path_child here (fst e), snd e)
                     :: walk (path_child here (fst e)) (snd e)) entries.
Proof.
  cbn [walk].
  induction entries as [|e rest IH]; [reflexivity|].
  cbn [flat_map]. by rewrite <- IH.
Qed.

Lemma select_wildcard_In pat here entries f :
  In f (select_wildcard pat here entries) ↔
  ∃ e, In e entries ∧ fnmatch pat (fst e) = true ∧
       f = (path_child here (fst e), snd e).
Proof.
  unfold select_wildcard. rewrite in_map_iff. split.
  - intros (e & <- & [He Hm]%filter_In). eauto.
  - intros (e & He & Hm & ->). exists e. split; [done|].
    apply filter_In. done.
Qed.

(** [rglob] yields what lies below the directory and has a matching name. *)
Lemma rglob_from_In pat n : ∀ here f,
  In f (rglob_from pat here n) ↔
  In f (walk here n) ∧ fnmatch pat (ref_name f) = true.
Proof.
  induction n as [content|entries IH] using node_induction; intros here f.
  - simpl. tauto.
  - rewrite rglob_from_dir, walk_dir, in_app_iff, select_wildcard_In,
      !in_flat_map.
    rewrite Forall_forall in IH. split.
    + intros [(e & He & Hm & ->)|(e & He & Hin)].
      * split; [exists e; split; [done | by left]|].
        unfold ref_name. simpl. by rewrite path_name_child.
      * apply (IH e) in Hin; [|by apply list_elem_of_In].
        destruct Hin as [Hw Hm]. split; [|done].
        exists e. split; [done | by right].
    + intros [(e & He & [<-|Hw]) Hm].
      * left. exists e. split; [done|]. split; [|done].
        unfold ref_name in Hm. simpl in Hm. by rewrite path_name_child in Hm.
      * right. exists e. split; [done|].
        apply (IH e); [by apply list_elem_of_In | done].
Qed.

(** The files [get_all_docs_as_text] works on: what lies below the
    directory, has a dot in its name and no "store" in its lowered path. *)
Lemma sample_files_spec (fs : FileSystem) (d : Path) (f : FileRef) :
  f ∈ sample_files fs d ↔
  f ∈ walk_fs fs d ∧
  contains "." (ref_name f) = true ∧
  contains "store" (lower (path_str (ref_path f))) = false.
Proof.
  unfold sample_files, rglob, walk_fs.
  rewrite !list_elem_of_In, filter_In, negb_true_iff.
  destruct (fs d) as [n|].
  - rewrite rglob_from_In, fnmatch_star_dot_star. tauto.
  - simpl. tauto.
Qed.

(** ** One run over a list of files *)

Section Run.
Context `{C : Collaborators}.

(** [process_file] stores under the name of the file the text that
    [extract_text] gives. *)
Lemma process_file_extract (d0 : Dict) (f : FileRef) (w : World) :
  process_file d0 f w =
    (text ← extract_text f; mret (<[ref_name f := text]> d0)) w.
Proof.
  unfold process_file, extract_text.
  rewrite !run_bind. unfold lift.
  destruct (identify_file_type f) as [file_type|e]; [|reflexivity].
  cbv beta iota.
  repeat (destruct (String.eqb file_type _);
          [rewrite ?run_bind; cbv beta iota;
           by repeat match goal with
                     | |- context [match ?r with Ok _ => _ | Raise _ => _ end] =>
                         destruct r
                     end|]).
  reflexivity.
Qed.

Lemma extract_text_pure (f : FileRef) : pure_like (extract_text f).
Proof.
  unfold extract_text. apply pure_like_bind; [apply pure_like_lift|].
  intros file_type.
  repeat (destruct (String.eqb file_type _);
          [first [apply pure_like_lift | apply convert_pdf_to_text_pure]|]).
  apply pure_like_raise.
Qed.

Lemma process_file_pure (d0 : Dict) (f : FileRef) : pure_like (process_file d0 f).
Proof.
  intros w. rewrite process_file_extract. revert w.
  apply pure_like_bind; [apply extract_text_pure|].
  intros text. apply pure_like_ret.
Qed.

Lemma get_text_from_docs_pure (files : list FileRef) :
  pure_like (get_text_from_docs files).
Proof. apply pure_like_for_each. intros. apply process_file_pure. Qed.

Lemma get_all_docs_as_text_body_pure fs self _dir :
  pure_like (get_all_docs_as_text_body fs self _dir).
Proof.
  unfold get_all_docs_as_text_body.
  destruct _dir as [d|]; [apply get_text_from_docs_pure|].
  destruct (dir self) as [d|];
    [apply get_text_from_docs_pure | apply pure_like_raise].
Qed.

(** What [extract_text] gives in a world, the world being left as it is. *)
Lemma extract_text_run (f : FileRef) (w : World) :
  extract_text f w = (fst (extract_text f w), w).
Proof.
  pose proof (extract_text_pure f w) as H.
  destruct (extract_text f w) as [r w']. simpl in *. by subst.
Qed.

Lemma process_file_run (d0 : Dict) (f : FileRef) (w : World) :
  process_file d0 f w =
    match fst (extract_text f w) with
    | Ok text => (Ok (<[ref_name f := text]> d0), w)
    | Raise e => (Raise e, w)
    end.
Proof.
  rewrite process_file_extract, run_bind, extract_text_run.
  by destruct (fst (extract_text f w)).
Qed.

(** A run that returns has extracted every file of the list, and what it
    returns holds, next to what the dictionary held before, the names of
    the files, each with the text of a file of that name. *)
Lemma for_each_process_ok (files : list FileRef) : ∀ (d0 res : Dict) w w',
  for_each process_file d0 files w = (Ok res, w') →
  w' = w ∧
  Forall (λ f, ∃ text, fst (extract_text f w) = Ok text) files ∧
  (∀ name, name ∈ dom res ↔
           name ∈ dom d0 ∨ ∃ f, f ∈ files ∧ ref_name f = name) ∧
  (∀ name text, res !! name = Some text →
     d0 !! name = Some text ∨
     ∃ f, f ∈ files ∧ ref_name f = name ∧ fst (extract_text f w) = Ok text).
Proof.
  induction files as [|f files IH]; intros d0 res w w'; simpl.
  - intros [= <- <-]. split; [done|]. split; [done|]. split.
    + intros name. split; [by left|]. intros [?|(f & Hf & _)]; [done|].
      by apply not_elem_of_nil in Hf.
    + intros name text ?. by left.
  - rewrite run_bind, process_file_run.
    destruct (fst (extract_text f w)) as [text|e] eqn:Hf; [|done].
    intros (-> & Hall & Hdom & Hget)%IH.
    split; [done|]. split; [constructor; eauto|]. split.
    + intros name. rewrite Hdom, dom_insert. split.
      * intros [[->%elem_of_singleton|?]%elem_of_union|(g & Hg & <-)].
        -- right. exists f. split; [left|done].
        -- by left.
        -- right. exists g. split; [by right|done].
      * intros [?|(g & [->|Hg]%elem_of_cons & <-)].
        -- left. apply elem_of_union. by right.
        -- left. apply elem_of_union. left. by apply elem_of_singleton.
        -- right. eauto.
    + intros name text' [Hin|(g & Hg & <- & Hx)]%Hget.
      * destruct (decide (ref_name f = name)) as [<-|Hne].
        -- rewrite lookup_insert_eq in Hin. injection Hin as <-.
           right. exists f. split; [left|done].
        -- rewrite lookup_insert_ne in Hin by done. by left.
      * right. exists g. split; [by right|done].
Qed.

(** A run stops at the first file whose extraction raises, with that
    exception. *)
Lemma for_each_process_abort (pre post : list FileRef) (f : FileRef) e w :
  Forall (λ g, ∃ text, fst (extract_text g w) = Ok text) pre →
  fst (extract_text f w) = Raise e →
  ∀ d0, for_each process_file d0 (pre ++ f :: post) w = (Raise e, w).
Proof.
  intros Hpre Hf. induction Hpre as [|g pre [text Hg] _ IH]; intros d0; simpl.
  - by rewrite run_bind, process_file_run, Hf.
  - by rewrite run_bind, process_file_run, Hg, IH.
Qed.

Lemma extract_text_classified (f : FileRef) (w : World) (text : string) :
  fst (extract_text f w) = Ok text →
  is_file f = true ∧ ∃ tag, identify_file_type f = Ok tag.
Proof.
  unfold extract_text. rewrite run_lift_bind.
  destruct (identify_file_type f) as [tag|e] eqn:Hid; [|done].
  intros _. split; [|eauto].
  unfold identify_file_type, from_file, read_bytes, is_file in *.
  by destruct (snd f).
Qed.

(** The decorator: a valid entry is returned and nothing else happens,
    whatever function is decorated. *)
Lemma filecache_hit seconds function clock self _dir w data :
  lookup_valid seconds (at_lookup clock) (cache w) (key_of self _dir) = Some data →
  filecache seconds function clock self _dir w = (Ok data, w).
Proof. intros H. unfold filecache. rewrite run_bind. simpl. by rewrite H. Qed.

(** The decorator: without a valid entry the function is called, and what
    it returns is stored. *)
Lemma filecache_miss seconds function clock self _dir w :
  lookup_valid seconds (at_lookup clock) (cache w) (key_of self _dir) = None →
  filecache seconds function clock self _dir w =
    match function self _dir w with
    | (Ok retval, w') =>
        (Ok retval,
         with_cache (<[key_of self _dir := (at_store clock, retval)]> (cache w')) w')
    | (Raise e, w') => (Raise e, w')
    end.
Proof.
  intros H. unfold filecache. rewrite run_bind. simpl. rewrite H.
  rewrite run_bind. by destruct (function self _dir w) as [[retval|e] w'].
Qed.

(** C1 (the code departs from it): a file whose content has the media type
    text/plain is given the tag TXT, and [get_text_from_docs] has no
    branch for that tag: extraction raises "Unsupported file type: TXT",
    and no run over a list that holds such a file returns a result. *)
Theorem plain_text_is_refused (p : Path) (content : bytes) (w : World) :
  magic_from_buffer content = "text/plain" →
  identify_file_type (p, File content) = Ok TXT ∧
  extract_text (p, File content) w
    = (Raise (Exception "Unsupported file type: TXT"), w) ∧
  ∀ files, (p, File content) ∈ files →
    ∃ e, fst (get_text_from_docs files w) = Raise e.
Proof.
  intros Hmime.
  assert (Hid : identify_file_type (p, File content) = Ok TXT).
  { rewrite identify_file_type_file, Hmime. reflexivity. }
  assert (Hex : extract_text (p, File content) w
                = (Raise (Exception "Unsupported file type: TXT"), w)).
  { unfold extract_text. rewrite run_lift_bind, Hid. reflexivity. }
  split; [done|]. split; [done|].
  intros files Hin. unfold get_text_from_docs.
  destruct (for_each process_file ∅ files w) as [[res|e] w'] eqn:Hrun; [|eauto].
  apply for_each_process_ok in Hrun as (_ & Hall & _).
  rewrite Forall_forall in Hall. destruct (Hall _ Hin) as [text Htext].
  by rewrite Hex in Htext.
Qed.

(** C4 (amended): when the call is not served from the cache and the
    first file whose classification or extraction raises is [f], the call
    raises that very exception, returns no mapping and stores nothing. The
    exception names the file when it comes from the classification of a
    regular file; an exception of an extraction routine is passed on as
    the routine raised it. *)
Theorem first_failure_aborts fs clock self (d : Path)
    (pre post : list FileRef) (f : FileRef) (e : exn) (w : World) :
  lookup_valid (60 * 60) (at_lookup clock) (cache w) (key_of self (Some d)) = None →
  sample_files fs d = pre ++ f :: post →
  Forall (λ g, ∃ text, fst (extract_text g w) = Ok text) pre →
  fst (extract_text f w) = Raise e →
  get_all_docs_as_text fs clock self (Some d) w = (Raise e, w) ∧
  (is_file f = true → ∀ e', identify_file_type f = Raise e' →
     e = e' ∧
     e = Exception ("Unsupported file type: " +:+ ref_name f) ∧
     contains (ref_name f) (exn_msg e) = true) ∧
  (identify_file_type f = Ok PDF → fst (convert_pdf_to_text f w) = Raise e) ∧
  (identify_file_type f = Ok IMAGE → convert_image_to_text f = Raise e) ∧
  (identify_file_type f = Ok DOCX → extract_text_from_docx f = Raise e) ∧
  (identify_file_type f = Ok EXCEL → convert_xlsx_to_text f = Raise e) ∧
  (identify_file_type f = Ok CSV → csv_to_text f = Raise e).
Proof.
  intros Hmiss Hfiles Hpre Hf. split.
  - unfold get_all_docs_as_text. rewrite filecache_miss by done.
    unfold get_all_docs_as_text_body, get_text_from_docs.
    by rewrite Hfiles, (for_each_process_abort pre post f e w Hpre Hf).
  - unfold extract_text in Hf. rewrite run_lift_bind in Hf.
    split; [|repeat split; intros Hid; rewrite Hid in Hf; exact Hf].
    intros Hfile e' Hid. rewrite Hid in Hf. injection Hf as <-.
    destruct f as [p [content|entries]]; [|done].
    rewrite identify_file_type_file in Hid.
    destruct (documented_tag _); [done|]. injection Hid as <-.
    split; [done|]. split; [done|]. apply contains_app_r.
Qed.


End Run.

(** ** The cache *)

Section Cache.
Context `{C : Collaborators}.

Lemma get_all_docs_as_text_body_run fs self _dir w :
  get_all_docs_as_text_body fs self _dir w
    = (fst (get_all_docs_as_text_body fs self _dir w), w).
Proof.
  pose proof (get_all_docs_as_text_body_pure fs self _dir w) as H.
  destruct (get_all_docs_as_text_body _ _ _ w) as [r w']. simpl in *. by subst.
Qed.

(** A call that is not served from the cache runs the method, and stores
    what it returns. *)
Lemma get_all_docs_as_text_miss fs clock self _dir w :
  lookup_valid (60 * 60) (at_lookup clock) (cache w) (key_of self _dir) = None →
  get_all_docs_as_text fs clock self _dir w =
    match fst (get_all_docs_as_text_body fs self _dir w) with
    | Ok retval =>
        (Ok retval,
         with_cache (<[key_of self _dir := (at_store clock, retval)]> (cache w)) w)
    | Raise e => (Raise e, w)
    end.
Proof.
  intros Hmiss. unfold get_all_docs_as_text.
  rewrite filecache_miss, get_all_docs_as_text_body_run by done.
  by destruct (fst _).
Qed.

Lemma lookup_valid_Some (seconds now : Z) (db : gmap Key (Z * Dict))
    (key : Key) (data : Dict) :
  lookup_valid seconds now db key = Some data ↔
  ∃ stored, db !! key = Some (stored, data) ∧ (now - stored < seconds)%Z.
Proof.
  unfold lookup_valid. destruct (db !! key) as [[stored data']|]; simpl.
  - case_bool_decide; split.
    + intros [= ->]. eauto.
    + intros (? & [= <- <-] & _). done.
    + done.
    + intros (? & [= <- <-] & ?). done.
  - split; [done|]. by intros (? & ? & _).
Qed.

Lemma lookup_valid_expired (seconds now : Z) (db : gmap Key (Z * Dict))
    (key : Key) (stored : Z) (data : Dict) :
  db !! key = Some (stored, data) → (seconds ≤ now - stored)%Z →
  lookup_valid seconds now db key = None.
Proof.
  intros Hdb Hlate. unfold lookup_valid. rewrite Hdb. simpl.
  case_bool_decide; [lia|done].
Qed.

(** C8 (amended): the hour is counted from the time the entry was
    stored. After a call that returned [out], the cache holds [out] for the
    key, stored at a time [stored] (the time of this call's storing when
    the call computed). Any later call with the same key that looks the
    key up less than 3600 seconds after [stored] returns the same [out] and
    changes nothing, whatever the files then are and whatever function
    stands behind the decorator: extraction is not run. A call that comes
    3600 seconds or more after [stored] runs the method again, and stores
    what it returns with the new time. *)
Theorem cached_within_ttl fs1 clock1 self _dir (w0 w1 : World) (out : Dict) :
  get_all_docs_as_text fs1 clock1 self _dir w0 = (Ok out, w1) →
  ∃ stored : Z,
    cache w1 !! key_of self _dir = Some (stored, out) ∧
    (lookup_valid 3600 (at_lookup clock1) (cache w0) (key_of self _dir) = None →
       stored = at_store clock1) ∧
    (∀ function clock2, (at_lookup clock2 - stored < 3600)%Z →
       filecache (60 * 60) function clock2 self _dir w1 = (Ok out, w1)) ∧
    (∀ fs2 clock2, (at_lookup clock2 - stored < 3600)%Z →
       get_all_docs_as_text fs2 clock2 self _dir w1 = (Ok out, w1)) ∧
    (∀ fs3 clock3, (3600 ≤ at_lookup clock3 - stored)%Z →
       get_all_docs_as_text fs3 clock3 self _dir w1 =
         match fst (get_all_docs_as_text_body fs3 self _dir w1) with
         | Ok out3 =>
             (Ok out3,
              with_cache (<[key_of self _dir := (at_store clock3, out3)]> (cache w1)) w1)
         | Raise e => (Raise e, w1)
         end).
Proof.
  intros Hcall.
  assert (∃ stored, cache w1 !! key_of self _dir = Some (stored, out) ∧
            (lookup_valid 3600 (at_lookup clock1) (cache w0) (key_of self _dir)
               = None → stored = at_store clock1))
    as (stored & Hentry & Hstored).
  { change 3600%Z with (60 * 60)%Z.
    destruct (lookup_valid (60 * 60) (at_lookup clock1) (cache w0)
                (key_of self _dir)) as [data|] eqn:Hvalid.
    - unfold get_all_docs_as_text in Hcall.
      rewrite (filecache_hit _ _ _ _ _ _ data) in Hcall by done.
      injection Hcall as -> ->.
      apply lookup_valid_Some in Hvalid as (stored & Hdb & _).
      exists stored. done.
    - rewrite get_all_docs_as_text_miss in Hcall by done.
      destruct (fst _) as [retval|e]; [|done].
      injection Hcall as -> <-. exists (at_store clock1).
      split; [|done]. simpl. apply lookup_insert_eq. }
  exists stored. split; [done|]. split; [done|].
  assert (Hhit : ∀ clock2, (at_lookup clock2 - stored < 3600)%Z →
            lookup_valid (60 * 60) (at_lookup clock2) (cache w1)
              (key_of self _dir) = Some out).
  { intros clock2 Hfresh. apply lookup_valid_Some. exists stored.
    split; [done|]. lia. }
  split; [|split].
  - intros function clock2 Hfresh. by apply filecache_hit, Hhit.
  - intros fs2 clock2 Hfresh. by apply filecache_hit, Hhit.
  - intros fs3 clock3 Hlate. apply get_all_docs_as_text_miss.
    eapply lookup_valid_expired; [done|]. lia.
Qed.

(** No reachable cache holds an entry for the key of a call without any
    directory: such a call never returns. *)
Lemma reachable_no_default_entry (w : World) :
  reachable w → cache w !! ((None, None) : Key) = None.
Proof.
  induction 1 as [t|fs clock self _dir w _ IH]; [apply lookup_empty|].
  destruct (lookup_valid (60 * 60) (at_lookup clock) (cache w)
              (key_of self _dir)) as [data|] eqn:Hvalid.
  - unfold get_all_docs_as_text.
    by rewrite (filecache_hit _ _ _ _ _ _ data) by done.
  - rewrite get_all_docs_as_text_miss by done.
    destruct (fst _) as [retval|e] eqn:Hbody; [|done].
    simpl. rewrite lookup_insert_ne; [done|].
    unfold key_of. intros [= Hself Harg]. subst _dir.
    unfold get_all_docs_as_text_body in Hbody. by rewrite Hself in Hbody.
Qed.

(** C10: with an extractor made without a directory, a call of
    [get_all_docs_as_text] without a directory raises the [AttributeError]
    of looking up [rglob] on [None]: it returns no result, and the
    exception is none of the documented ones. *)
Theorem no_directory_raises fs clock (w : World) :
  reachable w →
  get_all_docs_as_text fs clock (init None) None w
    = (Raise (AttributeError "'NoneType' object has no attribute 'rglob'"), w).
Proof.
  intros Hreach%reachable_no_default_entry.
  rewrite get_all_docs_as_text_miss; [reflexivity|].
  unfold lookup_valid, key_of. simpl. by rewrite Hreach.
Qed.

End Cache.

(** ** The properties on sample documents *)

Section Samples.
Import Stub.
Local Existing Instance collaborators.

(** A text file alone in a run: the run raises. *)
Lemma plain_text_is_refused_witness :
  magic_from_buffer (bytes_of "remember the milk") = "text/plain" ∧
  extract_text notes empty_world
    = (Raise (Exception "Unsupported file type: TXT"), empty_world).
Proof.
  split; [reflexivity|].
  apply (plain_text_is_refused (path_child data "notes.txt")
           (bytes_of "remember the milk") empty_world).
  reflexivity.
Defined.



(** C4 (as stated, refuted): ledger.csv is classified as CSV and its
    rows do not parse; the call raises the exception of the parser as it
    is, and its message does not hold the name of the file. *)
Lemma parser_error_does_not_name_file :
  sample_files (mount data tree_with_ledger) data = [report; ledger; scan] ∧
  identify_file_type ledger = Ok CSV ∧
  csv_to_text ledger = Raise parser_error ∧
  get_all_docs_as_text (mount data tree_with_ledger) (mk_clock 0 1)
    (init None) (Some data) empty_world = (Raise parser_error, empty_world) ∧
  contains (ref_name ledger) (exn_msg parser_error) = false.
Proof. repeat split; vm_compute; reflexivity. Qed.

Lemma first_failure_aborts_witness :
  sample_files (mount data tree_with_ledger) data = [report] ++ ledger :: [scan] ∧
  fst (extract_text ledger empty_world) = Raise parser_error ∧
  get_all_docs_as_text (mount data tree_with_ledger) (mk_clock 0 1)
    (init None) (Some data) empty_world = (Raise parser_error, empty_world).
Proof.
  split; [vm_compute; reflexivity|]. split; [vm_compute; reflexivity|].
  apply (first_failure_aborts (mount data tree_with_ledger) (mk_clock 0 1)
           (init None) data [report] [scan] ledger parser_error empty_world).
  - reflexivity.
  - vm_compute; reflexivity.
  - constructor; [|constructor]. exists report_text. vm_compute; reflexivity.
  - vm_compute; reflexivity.
Defined.


(** A call that computes, then calls inside and outside the hour. *)
Lemma cached_within_ttl_witness :
  get_all_docs_as_text (mount data tree_with_readme) (mk_clock 0 1)
    (init None) (Some data) empty_world
    = (Ok report_only, mk_world ∅ {[ (None, Some data) := (1%Z, report_only) ]}) ∧
  ∃ stored : Z,
    cache (mk_world ∅ {[ (None, Some data) := (1%Z, report_only) ]})
      !! key_of (init None) (Some data) = Some (stored, report_only).
Proof.
  split; [vm_compute; reflexivity|].
  destruct (cached_within_ttl (mount data tree_with_readme) (mk_clock 0 1)
              (init None) (Some data) empty_world
              (mk_world ∅ {[ (None, Some data) := (1%Z, report_only) ]})
              report_only)
    as (stored & Hentry & _).
  - vm_compute; reflexivity.
  - exists stored. exact Hentry.
Defined.

(** The first call of a program, made without any directory. *)
Lemma no_directory_raises_witness :
  reachable empty_world ∧
  get_all_docs_as_text (mount data tree_with_readme) (mk_clock 0 1)
    (init None) None empty_world
    = (Raise (AttributeError "'NoneType' object has no attribute 'rglob'"),
       empty_world).
Proof.
  split; [apply reach_start|].
  apply (no_directory_raises (mount data tree_with_readme) (mk_clock 0 1)
           empty_world).
  apply reach_start.
Defined.

End Samples.

(** * Further properties of the extractor *)

Local Set Warnings "-clear-no-such-hyp".

(** ** Substrings and case *)

Lemma prefix_empty (s : string) : String.prefix "" s = true.
Proof. by destruct s. Qed.

Lemma prefix_cons (c d : ascii) (x s : string) :
  String.prefix (String c x) (String d s) = true ↔ c = d ∧ String.prefix x s = true.
Proof.
  cbn [String.prefix]. destruct (ascii_dec c d) as [->|Hne]; [tauto|].
  split; [done | by intros [? _]].
Qed.

Lemma prefix_app (x s t : string) :
  String.prefix x s = true → String.prefix x (s +:+ t) = true.
Proof.
  revert s. induction x as [|c x IH]; intros s; [intros _; apply prefix_empty|].
  destruct s as [|d s]; [done|].
  change (String d s +:+ t) with (String d (s +:+ t)).
  rewrite !prefix_cons. intros [-> H]. split; [done | by apply IH].
Qed.

Lemma contains_cons (x : string) (c : ascii) (s : string) :
  contains x (String c s) = String.prefix x (String c s) || contains x s.
Proof. reflexivity. Qed.

(** What occurs in a string occurs in every string that starts with it. *)
Lemma contains_app_l (x s t : string) :
  contains x s = true → contains x (s +:+ t) = true.
Proof.
  induction s as [|c s IH].
  - destruct x; [intros _|done]. destruct t; reflexivity.
  - change (String c s +:+ t) with (String c (s +:+ t)).
    rewrite !contains_cons, !orb_true_iff.
    intros [H|H]; [left | right; by apply IH].
    by apply (prefix_app _ (String c s) t).
Qed.

(** What occurs in a string occurs in every string that holds it. *)
Lemma contains_middle (before x after : string) :
  contains x (before +:+ x +:+ after) = true.
Proof.
  induction before as [|c before IH].
  - change ("" +:+ x +:+ after) with (x +:+ after).
    apply contains_app_l, contains_refl.
  - change (String c before +:+ x +:+ after)
      with (String c (before +:+ x +:+ after)).
    rewrite contains_cons, IH. apply orb_true_r.
Qed.

Lemma lower_app (s t : string) : lower (s +:+ t) = lower s +:+ lower t.
Proof.
  induction s as [|c s IH]; [reflexivity|].
  change (String (lower_ascii c) (lower (s +:+ t))
          = String (lower_ascii c) (lower s +:+ lower t)).
  by rewrite IH.
Qed.

Lemma prefix_lower (x s : string) :
  String.prefix x s = true → String.prefix (lower x) (lower s) = true.
Proof.
  revert s. induction x as [|c x IH]; intros s; [intros _; apply prefix_empty|].
  destruct s as [|d s]; [done|].
  change (lower (String c x)) with (String (lower_ascii c) (lower x)).
  change (lower (String d s)) with (String (lower_ascii d) (lower s)).
  rewrite !prefix_cons. intros [-> H]. split; [done | by apply IH].
Qed.

(** Lowering keeps occurrences. *)
Lemma contains_lower (x s : string) :
  contains x s = true → contains (lower x) (lower s) = true.
Proof.
  induction s as [|c s IH].
  - destruct x; [done|]. done.
  - change (lower (String c s)) with (String (lower_ascii c) (lower s)).
    rewrite !contains_cons, !orb_true_iff.
    intros [H|H]; [left | right; by apply IH].
    by apply (prefix_lower x (String c s)).
Qed.

(** ** Paths below a directory *)

Lemma join_snoc (sep : string) (ps : list string) (c : string) :
  ps ≠ [] → join sep (ps ++ [c]) = join sep ps +:+ sep +:+ c.
Proof.
  induction ps as [|p ps IH]; [done|]. intros _.
  destruct ps as [|q ps]; [reflexivity|].
  change (join sep ((p :: q :: ps) ++ [c]))
    with (p +:+ sep +:+ join sep ((q :: ps) ++ [c])).
  change (join sep (p :: q :: ps)) with (p +:+ sep +:+ join sep (q :: ps)).
  rewrite IH by done. by rewrite !append_assoc.
Qed.

(** A child of a path that has "store" in it has "store" in it. *)
Lemma store_in_child (p : Path) (child : string) :
  contains "store" (lower (path_str p)) = true →
  contains "store" (lower (path_str (path_child p child))) = true.
Proof.
  destruct p as [[] ps]; unfold path_str, path_child; simpl parts; simpl is_absolute.
  - destruct ps as [|q ps]; [done|]. intros H.
    rewrite join_snoc by done.
    rewrite <- (append_assoc "/" (join "/" (q :: ps))).
    rewrite lower_app. by apply contains_app_l.
  - destruct ps as [|q ps]; [done|]. intros H.
    cbn [app]. change (q :: ps ++ [child]) with ((q :: ps) ++ [child]).
    rewrite join_snoc by done. rewrite lower_app. by apply contains_app_l.
Qed.

Lemma store_in_walk (n : node) : ∀ here f,
  contains "store" (lower (path_str here)) = true →
  In f (walk here n) →
  contains "store" (lower (path_str (ref_path f))) = true.
Proof.
  induction n as [content|entries IH] using node_induction; intros here f Hhere.
  - done.
  - rewrite walk_dir, in_flat_map. rewrite Forall_forall in IH.
    intros (e & He & [<-|Hin]).
    + by apply store_in_child.
    + eapply (IH e); [by apply list_elem_of_In | | exact Hin].
      by apply store_in_child.
Qed.

(** ** Classification and selection *)

Section Selection.
Context `{C : Collaborators}.

(** X1: whatever [identify_file_type] returns is one of the six tags of
    the class, and it returns only for a regular file: on a directory it
    raises. *)
Theorem identify_file_type_closed (f : FileRef) (tag : string) :
  identify_file_type f = Ok tag →
  is_file f = true ∧ tag ∈ [PDF; IMAGE; DOCX; TXT; EXCEL; CSV].
Proof.
  destruct f as [p [content|entries]]; [|done].
  rewrite identify_file_type_file.
  destruct (documented_tag _) as [t|]; [|done].
  intros [= <-]. split; [done|].
  destruct t; cbn [tag_attr]; set_solver.
Qed.

(** X2: the filter on "store" does not look at case: a file whose path
    holds any spelling of it (Store, STORE, ...) is not worked on. *)
Theorem store_filter_ignores_case (fs : FileSystem) (d : Path) (f : FileRef)
    (spelling : string) :
  lower spelling = "store" →
  contains spelling (path_str (ref_path f)) = true →
  f ∉ sample_files fs d.
Proof.
  intros Hlow Hin [_ [_ Hno]]%sample_files_spec.
  apply contains_lower in Hin. rewrite Hlow in Hin. congruence.
Qed.

(** A call that finds no file to work on and is not served from the cache
    returns the empty dictionary and stores it. *)
Lemma no_sample_files_run fs clock self (d : Path) (w : World) :
  sample_files fs d = [] →
  lookup_valid (60 * 60) (at_lookup clock) (cache w) (key_of self (Some d)) = None →
  get_all_docs_as_text fs clock self (Some d) w =
    (Ok ∅,
     with_cache (<[key_of self (Some d) := (at_store clock, ∅)]> (cache w)) w).
Proof.
  intros Hnil Hmiss. rewrite get_all_docs_as_text_miss by done.
  unfold get_all_docs_as_text_body, get_text_from_docs. by rewrite Hnil.
Qed.

(** X3: a path that does not exist, a path that is a regular file and an
    empty directory are no errors: the call returns the empty dictionary,
    and stores it in the cache like any other result. *)
Theorem nothing_to_walk_gives_empty fs clock self (d : Path) (w : World) :
  fs d = None ∨ (∃ content, fs d = Some (File content)) ∨ fs d = Some (Dir []) →
  lookup_valid (60 * 60) (at_lookup clock) (cache w) (key_of self (Some d)) = None →
  get_all_docs_as_text fs clock self (Some d) w =
    (Ok ∅,
     with_cache (<[key_of self (Some d) := (at_store clock, ∅)]> (cache w)) w).
Proof.
  intros Hd. apply no_sample_files_run.
  unfold sample_files, rglob.
  destruct Hd as [->|[[content ->]| ->]]; reflexivity.
Qed.

(** X4: when the path of the directory itself holds "store" in any case,
    every file below it is filtered out: the call returns the empty
    dictionary whatever the directory holds. *)
Theorem store_in_directory_path_gives_empty fs clock self (d : Path) (w : World) :
  contains "store" (lower (path_str d)) = true →
  lookup_valid (60 * 60) (at_lookup clock) (cache w) (key_of self (Some d)) = None →
  get_all_docs_as_text fs clock self (Some d) w =
    (Ok ∅,
     with_cache (<[key_of self (Some d) := (at_store clock, ∅)]> (cache w)) w).
Proof.
  intros Hstore. apply no_sample_files_run.
  destruct (sample_files fs d) as [|f files] eqn:Hfiles; [done|].
  assert (Hf : f ∈ sample_files fs d) by (rewrite Hfiles; left).
  apply sample_files_spec in Hf as (Hwalk & _ & Hno).
  unfold walk_fs in Hwalk. destruct (fs d) as [n|]; [|by apply not_elem_of_nil in Hwalk].
  apply list_elem_of_In in Hwalk.
  rewrite (store_in_walk n d f Hstore Hwalk) in Hno. done.
Qed.

(** X5: the walk also yields directories. A directory below the walked
    one that has a dot in its name and no "store" in its path makes a call
    that is not served from the cache raise. *)
Theorem dotted_directory_aborts fs clock self (d : Path) (f : FileRef) (w : World) :
  selected fs d f →
  is_file f = false →
  lookup_valid (60 * 60) (at_lookup clock) (cache w) (key_of self (Some d)) = None →
  ∃ e, get_all_docs_as_text fs clock self (Some d) w = (Raise e, w).
Proof.
  intros Hsel%sample_files_spec Hdir Hmiss.
  rewrite get_all_docs_as_text_miss by done.
  destruct (fst _) as [res|e] eqn:Hbody; [|eauto].
  unfold get_all_docs_as_text_body, get_text_from_docs in Hbody.
  destruct (for_each process_file ∅ (sample_files fs d) w) as [r w'] eqn:Hrun.
  simpl in Hbody. subst r.
  apply for_each_process_ok in Hrun as (_ & Hall & _).
  rewrite Forall_forall in Hall. destruct (Hall f Hsel) as [text Htext].
  apply extract_text_classified in Htext as [Hfile _]. congruence.
Qed.

End Selection.

(** ** Names and the dictionary of a run *)

Section Names.
Context `{C : Collaborators}.

(** A run over files of other names keeps what the dictionary holds under
    a name. *)
Lemma for_each_process_other (files : list FileRef) (name : string) :
  (∀ g, g ∈ files → ref_name g ≠ name) →
  ∀ (d0 res : Dict) w w',
    for_each process_file d0 files w = (Ok res, w') →
    res !! name = d0 !! name.
Proof.
  induction files as [|g files IH]; intros Hother d0 res w w'; simpl.
  - by intros [= <- _].
  - rewrite run_bind, process_file_run.
    destruct (fst (extract_text g w)) as [text|e]; [|done].
    intros Hrun. rewrite (IH (λ h Hh, Hother h (list_elem_of_further _ _ _ Hh))
                            _ _ _ _ Hrun).
    apply lookup_insert_ne, Hother. left.
Qed.

Lemma for_each_process_app (pre post : list FileRef) : ∀ (d0 : Dict) w,
  for_each process_file d0 (pre ++ post) w =
    match for_each process_file d0 pre w with
    | (Ok d1, w1) => for_each process_file d1 post w1
    | (Raise e, w1) => (Raise e, w1)
    end.
Proof.
  induction pre as [|g pre IH]; intros d0 w; simpl; [reflexivity|].
  rewrite !run_bind. destruct (process_file d0 g w) as [[d1|e] w1]; [|reflexivity].
  apply IH.
Qed.

(** X6: the dictionary is keyed by file name alone, so of several files
    of one name, in whatever directories, the result holds the text of the
    one worked on last. *)
Theorem last_file_of_a_name_wins (pre post : list FileRef) (f : FileRef)
    (res : Dict) (w w' : World) :
  get_text_from_docs (pre ++ f :: post) w = (Ok res, w') →
  (∀ g, g ∈ post → ref_name g ≠ ref_name f) →
  ∃ text, fst (extract_text f w) = Ok text ∧ res !! ref_name f = Some text.
Proof.
  unfold get_text_from_docs. rewrite for_each_process_app.
  destruct (for_each process_file ∅ pre w) as [[d1|e] w1] eqn:Hpre; [|done].
  apply for_each_process_ok in Hpre as (-> & _).
  simpl. rewrite run_bind, process_file_run.
  destruct (fst (extract_text f w)) as [text|e] eqn:Hf; [|done].
  intros Hpost Hother. exists text. split; [done|].
  rewrite (for_each_process_other post (ref_name f) Hother _ _ _ _ Hpost).
  apply lookup_insert_eq.
Qed.

(** X7: when the files of a run have different names, the result has one
    entry per file: none is lost. *)
Theorem distinct_names_keep_every_file (files : list FileRef)
    (res : Dict) (w w' : World) :
  NoDup (ref_name <$> files) →
  get_text_from_docs files w = (Ok res, w') →
  size res = length files.
Proof.
  intros Hnodup Hrun. unfold get_text_from_docs in Hrun.
  apply for_each_process_ok in Hrun as (_ & _ & Hdom & _).
  assert (Heq : dom res = list_to_set (ref_name <$> files)).
  { apply set_eq. intros name. rewrite Hdom, elem_of_list_to_set, list_elem_of_fmap.
    split.
    - intros [?%not_elem_of_empty|(f & Hf & <-)]; [done|eauto].
    - intros (f & -> & Hf). right. eauto. }
  rewrite <- size_dom, Heq, size_list_to_set by done.
  apply length_fmap.
Qed.

End Names.

(** ** The log *)

Section Log.
Context `{C : Collaborators}.

Lemma run_bind_logged {A B} (m : ML A) (k : A → ML B) s :
  (m ≫= k) s =
    match m s with
    | (Ok a, s') => k a s'
    | (Raise e, s') => (Raise e, s')
    end.
Proof. reflexivity. Qed.

Lemma process_file_logged_run (d0 : Dict) (f : FileRef) (w : World)
    (log : list string) :
  process_file_logged d0 f (w, log) =
    match fst (extract_text f w) with
    | Ok text => (Ok (<[ref_name f := text]> d0), (w, log ++ log_of f))
    | Raise e => (Raise e, (w, log ++ ["Working on: " +:+ ref_name f]))
    end.
Proof.
  unfold process_file_logged. rewrite run_bind_logged.
  unfold logger_info at 1. cbn [fst snd].
  rewrite run_bind_logged. unfold unlogged at 1. cbn [fst snd].
  rewrite process_file_run.
  destruct (fst (extract_text f w)) as [text|e]; [|reflexivity].
  rewrite run_bind_logged. unfold logger_info. cbn [fst snd].
  unfold log_of. by rewrite <- app_assoc.
Qed.

(** With the log left out, the logged run is the run. *)
Lemma get_text_from_docs_logged_erase (files : list FileRef) : ∀ d0 w log,
  fst (for_each_logged process_file_logged d0 files (w, log))
    = fst (for_each process_file d0 files w) ∧
  fst (snd (for_each_logged process_file_logged d0 files (w, log)))
    = snd (for_each process_file d0 files w).
Proof.
  induction files as [|f files IH]; intros d0 w log; simpl; [done|].
  rewrite run_bind_logged, process_file_logged_run, run_bind, process_file_run.
  destruct (fst (extract_text f w)) as [text|e]; [apply IH | done].
Qed.

(** X8: a run that returns has logged, for each file in the order of the
    list, "Working on: <name>" and then "Done: <name>", and nothing else;
    its result and its effects are those of the run without the log. *)
Theorem log_of_a_run_that_returns (files : list FileRef) (res : Dict)
    (w w' : World) (log : list string) :
  get_text_from_docs files w = (Ok res, w') →
  get_text_from_docs_logged files (w, log)
    = (Ok res, (w', log ++ flat_map log_of files)).
Proof.
  unfold get_text_from_docs, get_text_from_docs_logged.
  generalize (∅ : Dict) as d0. revert log.
  induction files as [|f files IH]; intros log d0; simpl.
  - intros [= <- <-]. by rewrite app_nil_r.
  - rewrite run_bind_logged, process_file_logged_run, run_bind, process_file_run.
    destruct (fst (extract_text f w)) as [text|e]; [|done].
    intros Hrun. rewrite (IH _ _ Hrun). by rewrite <- app_assoc.
Qed.

(** X9: when the run raises at a file, the files before it having been
    extracted, the log ends with "Working on: <name>" of that file, with
    no "Done" for it and nothing for the files after it: the last line of
    the log names the file that failed. *)
Theorem log_names_the_failing_file (pre post : list FileRef) (f : FileRef)
    (e : exn) (w : World) (log : list string) :
  Forall (λ g, ∃ text, fst (extract_text g w) = Ok text) pre →
  fst (extract_text f w) = Raise e →
  get_text_from_docs_logged (pre ++ f :: post) (w, log)
    = (Raise e,
       (w, log ++ flat_map log_of pre ++ ["Working on: " +:+ ref_name f])).
Proof.
  intros Hpre Hf. unfold get_text_from_docs_logged.
  generalize (∅ : Dict) as d0. revert log.
  induction Hpre as [|g pre [text Hg] _ IH]; intros log d0; simpl.
  - by rewrite run_bind_logged, process_file_logged_run, Hf.
  - rewrite run_bind_logged, process_file_logged_run, Hg, IH.
    by rewrite <- !app_assoc.
Qed.

End Log.

(** ** Pages, sheets and paragraphs *)

Lemma append_inj_r (a b s : string) : a +:+ s = b +:+ s → a = b.
Proof.
  assert (Hlen : ∀ x y, String.length (x +:+ y) = String.length x + String.length y).
  { intros x y. induction x as [|c x IH]; [reflexivity|].
    change (S (String.length (x +:+ y)) = S (String.length x + String.length y)).
    by rewrite IH. }
  revert b. induction a as [|c a IH]; intros [|d b] H.
  - done.
  - apply (f_equal String.length) in H.
    change ("" +:+ s) with s in H. rewrite Hlen in H. simpl in H. lia.
  - apply (f_equal String.length) in H.
    change ("" +:+ s) with s in H. rewrite Hlen in H. simpl in H. lia.
  - change (String c (a +:+ s) = String d (b +:+ s)) in H.
    injection H as -> H. f_equal. by apply IH.
Qed.

Lemma str_of_nat_inj (n m : nat) : str_of_nat n = str_of_nat m → n = m.
Proof.
  unfold str_of_nat. intros H.
  apply (f_equal NilZero.uint_of_string) in H.
  rewrite !NilZero.usu in H; [by injection H as H%DecimalNat.Unsigned.to_uint_inj|..].
  - destruct m; [done|]. intros Hnil.
    apply (f_equal Nat.of_uint) in Hnil.
    rewrite DecimalNat.Unsigned.of_to in Hnil. done.
  - destruct n; [done|]. intros Hnil.
    apply (f_equal Nat.of_uint) in Hnil.
    rewrite DecimalNat.Unsigned.of_to in Hnil. done.
Qed.

(** Different pages get different file names. *)
Lemma page_filename_inj : Inj (=) (=) page_filename.
Proof.
  intros i j H. unfold page_filename in H.
  apply (inj (String.append "page_")) in H.
  apply append_inj_r, str_of_nat_inj in H. lia.
Qed.

Section Pages.
Context `{C : Collaborators}.

(** A page whose OCR raises makes the page of the loop raise the same. *)
Lemma pdf_page_raise d acc page_number page e w files :
  page_ocr page = Raise e →
  tmp w !! d = Some files →
  fst (pdf_page d acc (page_number, page) w) = Raise e.
Proof.
  intros Hocr Hd. unfold page_ocr in Hocr. unfold pdf_page. cbv zeta.
  set (image_filename := String.append "page_" _).
  rewrite run_lift_bind.
  destruct (save_png page) as [png|e0] eqn:Hpng;
    cbn [mbind result_bind] in Hocr; [|by injection Hocr as ->].
  rewrite run_bind. unfold write_file at 1. rewrite Hd.
  rewrite run_bind. unfold read_file at 1. simpl tmp.
  rewrite lookup_insert_eq. simpl. rewrite lookup_insert_eq.
  rewrite run_lift_bind.
  destruct (Image_open png) as [image|e0] eqn:Himg;
    cbn [mbind result_bind] in Hocr; [|by injection Hocr as ->].
  rewrite run_lift_bind, Hocr. reflexivity.
Qed.

Lemma pdf_loop_raise d pre texts page post e :
  Forall2 (λ page text, page_ocr page = Ok text) pre texts →
  page_ocr page = Raise e →
  ∀ k acc w files,
    tmp w !! d = Some files →
    fst (for_each (pdf_page d) acc
           (zip (seq k (length (pre ++ page :: post))) (pre ++ page :: post)) w)
      = Raise e.
Proof.
  intros Hpre Hocr.
  induction Hpre as [|p text pre texts Hp _ IH]; intros k acc w files Hd.
  - cbn [app length seq zip_with for_each]. rewrite run_bind.
    pose proof (pdf_page_raise d acc k page e w files Hocr Hd) as H.
    by destruct (pdf_page d acc (k, page) w) as [[?|?] ?]; simpl in H; subst.
  - cbn [app length seq zip_with for_each]. rewrite run_bind.
    destruct (pdf_page_text d acc k p text w files Hp Hd)
      as (w' & files' & -> & Hd').
    by apply (IH (S k) _ w' files').
Qed.

(** X10: a page that cannot be saved, read back or recognized stops
    [convert_pdf_to_text]: it raises the exception of the first such page,
    and no text of the pages before it is returned. *)
Theorem first_failing_page_aborts (pdf_path : FileRef) (content : bytes)
    (pre post : list Image) (page : Image) (texts : list string) (e : exn)
    (w : World) :
  read_bytes pdf_path = Ok content →
  convert_from_path content 300 = Ok (pre ++ page :: post) →
  Forall2 (λ page text, page_ocr page = Ok text) pre texts →
  page_ocr page = Raise e →
  convert_pdf_to_text pdf_path w = (Raise e, w).
Proof.
  intros Hread Hpages Hpre Hocr.
  pose proof (convert_pdf_to_text_pure pdf_path w) as Hpure.
  destruct (convert_pdf_to_text pdf_path w) as [r w'] eqn:Hrun.
  simpl in Hpure. subst w'. f_equal.
  change r with (fst (r, w)). rewrite <- Hrun.
  unfold convert_pdf_to_text.
  rewrite run_lift_bind, Hread, run_lift_bind, Hpages.
  unfold with_TemporaryDirectory, enumerate.
  set (d := fresh (dom (tmp w))).
  set (w0 := with_tmp (<[d:=∅]> (tmp w)) w).
  pose proof (pdf_loop_raise d pre texts page post e Hpre Hocr 0 "" w0 ∅) as Hloop.
  destruct (for_each _ _ _ w0) as [r1 w1]. simpl in *.
  apply Hloop, lookup_insert_eq.
Qed.

(** The files of the temporary directory after the loop over the pages. *)
Lemma pdf_loop_files d pages texts :
  Forall2 (λ page text, page_ocr page = Ok text) pages texts →
  ∀ k acc w files,
    tmp w !! d = Some files →
    ∃ files',
      tmp (snd (for_each (pdf_page d) acc (zip (seq k (length pages)) pages) w)) !! d
        = Some files' ∧
      dom files' = dom files ∪ list_to_set (page_filename <$> seq k (length pages)).
Proof.
  induction 1 as [|page text pages texts Hocr _ IH]; intros k acc w files Hd.
  - simpl. exists files. split; [done|]. set_solver.
  - cbn [length seq zip_with for_each]. rewrite run_bind.
    assert (∃ w' png, pdf_page d acc (k, page) w
                        = (Ok (acc +:+ page_block k text), w') ∧
              tmp w' !! d = Some (<[page_filename k := png]> files))
      as (w' & png & -> & Hd').
    { unfold page_ocr in Hocr. unfold pdf_page. cbv zeta.
      fold (page_filename k).
      destruct (save_png page) as [png|e] eqn:Hpng; [|done].
      cbn [mbind result_bind] in Hocr.
      destruct (Image_open png) as [image|e] eqn:Himg; [|done].
      cbn [mbind result_bind] in Hocr.
      rewrite run_lift_bind, run_bind. unfold write_file at 1. rewrite Hd.
      rewrite run_bind. unfold read_file at 1. simpl tmp.
      rewrite lookup_insert_eq. simpl. rewrite lookup_insert_eq.
      rewrite run_lift_bind, Himg, run_lift_bind, Hocr.
      eexists _, png. split; [reflexivity|]. simpl. apply lookup_insert_eq. }
    destruct (IH (S k) (acc +:+ page_block k text) w' _ Hd')
      as (files' & Hfiles' & Hdom).
    exists files'. split; [done|]. rewrite Hdom, dom_insert_L.
    cbn [fmap list_fmap]. rewrite list_to_set_cons. set_solver.
Qed.

(** X11: no page image overwrites another. When the loop of
    [convert_pdf_to_text] has worked through n pages in a new temporary
    directory, the directory holds exactly n files, page_1.png to
    page_n.png, until the directory is removed. *)
Theorem one_image_file_per_page (d : nat) (pages : list Image)
    (texts : list string) (w : World) :
  Forall2 (λ page text, page_ocr page = Ok text) pages texts →
  tmp w !! d = Some ∅ →
  ∃ files,
    tmp (snd (for_each (pdf_page d) "" (enumerate pages) w)) !! d = Some files ∧
    size files = length pages ∧
    ∀ i, i < length pages → is_Some (files !! page_filename i).
Proof.
  intros Hocr Hd. unfold enumerate.
  destruct (pdf_loop_files d pages texts Hocr 0 "" w ∅ Hd) as (files & Hfiles & Hdom).
  exists files. split; [done|].
  rewrite dom_empty_L, (left_id_L ∅ (∪)) in Hdom. split.
  - rewrite <- size_dom, Hdom, size_list_to_set.
    + by rewrite length_fmap, length_seq.
    + apply NoDup_fmap; [apply page_filename_inj | apply NoDup_seq].
  - intros i Hi. apply elem_of_dom. rewrite Hdom, elem_of_list_to_set.
    apply list_elem_of_fmap. exists i. split; [done|].
    apply elem_of_seq. lia.
Qed.

(** X12: a sheet that cannot be read stops [convert_xlsx_to_text]: it
    raises the exception of the first such sheet. *)
Theorem first_failing_sheet_aborts (xlsx_path : FileRef) (content : bytes)
    (excel_data : Workbook) (pre post : list string) (sheet_name : string)
    (dfs : list DataFrame) (e : exn) :
  read_bytes xlsx_path = Ok content →
  ExcelFile content = Ok excel_data →
  sheet_names excel_data = pre ++ sheet_name :: post →
  Forall2 (λ name df, read_excel excel_data name = Ok df) pre dfs →
  read_excel excel_data sheet_name = Raise e →
  convert_xlsx_to_text xlsx_path = Raise e.
Proof.
  intros Hread Hopen Hnames Hpre Hsheet. unfold convert_xlsx_to_text.
  rewrite Hread. cbn [mbind mret result_bind result_ret]. rewrite Hopen.
  cbn [mbind mret result_bind result_ret]. rewrite Hnames.
  assert (Hloop : ∀ text_output,
            xlsx_loop excel_data text_output (pre ++ sheet_name :: post) = Raise e).
  { clear Hnames.
    induction Hpre as [|name df pre dfs Hname _ IH]; intros text_output; simpl.
    - unfold xlsx_sheet. by rewrite Hsheet.
    - unfold xlsx_sheet at 1. rewrite Hname.
      cbn [mbind mret result_bind result_ret]. apply IH. }
  by rewrite Hloop.
Qed.

End Pages.

(** ** Paragraphs *)

Lemma split_whole (sep : ascii) (p : string) :
  contains (String sep "") p = false → split sep p = [p].
Proof.
  induction p as [|a p IH]; [reflexivity|].
  rewrite contains_cons, orb_false_iff. intros [Hhead Hrest].
  cbn [split]. rewrite (IH Hrest).
  destruct (Ascii.eqb_spec a sep) as [->|Hne]; [|reflexivity].
  cbn [String.prefix] in Hhead.
  destruct (ascii_dec sep sep); [|done]. by rewrite prefix_empty in Hhead.
Qed.

Lemma split_first (sep : ascii) (p rest : string) :
  contains (String sep "") p = false →
  split sep (p +:+ String sep rest) = p :: split sep rest.
Proof.
  induction p as [|a p IH].
  - intros _. change ("" +:+ String sep rest) with (String sep rest).
    cbn [split]. by rewrite Ascii.eqb_refl.
  - rewrite contains_cons, orb_false_iff. intros [Hhead Hrest].
    change (String a p +:+ String sep rest) with (String a (p +:+ String sep rest)).
    cbn [split]. rewrite (IH Hrest).
    destruct (Ascii.eqb_spec a sep) as [->|Hne]; [|reflexivity].
    cbn [String.prefix] in Hhead.
    destruct (ascii_dec sep sep); [|done]. by rewrite prefix_empty in Hhead.
Qed.

Lemma split_join (sep : ascii) (ps : list string) :
  ps ≠ [] →
  Forall (λ p, contains (String sep "") p = false) ps →
  split sep (join (String sep "") ps) = ps.
Proof.
  induction ps as [|p ps IH]; [done|]. intros _ Hall.
  apply Forall_cons in Hall as [Hp Hps].
  destruct ps as [|q ps]; [by apply split_whole|].
  change (join (String sep "") (p :: q :: ps))
    with (p +:+ String sep (join (String sep "") (q :: ps))).
  rewrite split_first by done. f_equal. by apply IH.
Qed.

Section Paragraphs.
Context `{C : Collaborators}.

(** X13: the text of a DOCX keeps the paragraphs apart: when the document
    has at least one paragraph and no paragraph holds a newline, splitting
    the extracted text at the newlines gives the paragraphs back, in
    order. *)
Theorem docx_paragraphs_recoverable (file_path : FileRef) (content : bytes)
    (paragraphs : list string) :
  read_bytes file_path = Ok content →
  Document content = Ok paragraphs →
  paragraphs ≠ [] →
  Forall (λ p, contains nl p = false) paragraphs →
  ∃ text,
    extract_text_from_docx file_path = Ok text ∧
    split (ascii_of_nat 10) text = paragraphs.
Proof.
  intros Hread Hdoc Hne Hall. exists (join nl paragraphs). split.
  - unfold extract_text_from_docx. rewrite Hread.
    cbn [mbind mret result_bind result_ret]. by rewrite Hdoc.
  - by apply split_join.
Qed.

End Paragraphs.

(** ** More on the cache *)

Section CacheMore.
Context `{C : Collaborators}.

(** X14: exceptions are not cached. A call that raises was not served
    from the cache, raises what the method raised, and leaves the cache and
    temporary storage as they were. *)
Theorem raising_call_changes_nothing fs clock self _dir (w : World) (e : exn) :
  fst (get_all_docs_as_text fs clock self _dir w) = Raise e →
  snd (get_all_docs_as_text fs clock self _dir w) = w ∧
  lookup_valid (60 * 60) (at_lookup clock) (cache w) (key_of self _dir) = None ∧
  fst (get_all_docs_as_text_body fs self _dir w) = Raise e.
Proof.
  destruct (lookup_valid (60 * 60) (at_lookup clock) (cache w)
              (key_of self _dir)) as [data|] eqn:Hvalid.
  - unfold get_all_docs_as_text.
    by rewrite (filecache_hit _ _ _ _ _ _ data) by done.
  - rewrite get_all_docs_as_text_miss by done.
    destruct (fst (get_all_docs_as_text_body fs self _dir w)); [done|].
    simpl. by intros [= ->].
Qed.

(** What a call leaves alone: temporary storage and the entries of the
    other keys. *)
Lemma call_keeps_other_keys fs clock self _dir (w : World) (key : Key) :
  key_of self _dir ≠ key →
  cache (snd (get_all_docs_as_text fs clock self _dir w)) !! key
    = cache w !! key.
Proof.
  intros Hne.
  destruct (lookup_valid (60 * 60) (at_lookup clock) (cache w)
              (key_of self _dir)) as [data|] eqn:Hvalid.
  - unfold get_all_docs_as_text.
    by rewrite (filecache_hit _ _ _ _ _ _ data) by done.
  - rewrite get_all_docs_as_text_miss by done.
    destruct (fst _); [|done]. simpl. by rewrite lookup_insert_ne.
Qed.

Lemma call_keeps_tmp fs clock self _dir (w : World) :
  tmp (snd (get_all_docs_as_text fs clock self _dir w)) = tmp w.
Proof.
  destruct (lookup_valid (60 * 60) (at_lookup clock) (cache w)
              (key_of self _dir)) as [data|] eqn:Hvalid.
  - unfold get_all_docs_as_text.
    by rewrite (filecache_hit _ _ _ _ _ _ data) by done.
  - rewrite get_all_docs_as_text_miss by done. by destruct (fst _).
Qed.

(** X15: a call writes at most the entry of its own key. It leaves
    temporary storage and the entries of all other keys as they were, and
    it never removes an entry: an expired entry stays until a later result
    replaces it. *)
Theorem call_touches_only_its_key fs clock self _dir (w : World) :
  tmp (snd (get_all_docs_as_text fs clock self _dir w)) = tmp w ∧
  (∀ key, key ≠ key_of self _dir →
     cache (snd (get_all_docs_as_text fs clock self _dir w)) !! key
       = cache w !! key) ∧
  (∀ key, is_Some (cache w !! key) →
     is_Some (cache (snd (get_all_docs_as_text fs clock self _dir w)) !! key)).
Proof.
  split; [apply call_keeps_tmp|]. split.
  - intros key Hne. by apply call_keeps_other_keys.
  - intros key Hsome.
    destruct (decide (key_of self _dir = key)) as [<-|Hne];
      [|by rewrite call_keeps_other_keys].
    destruct (lookup_valid (60 * 60) (at_lookup clock) (cache w)
                (key_of self _dir)) as [data|] eqn:Hvalid.
    + unfold get_all_docs_as_text.
      by rewrite (filecache_hit _ _ _ _ _ _ data) by done.
    + rewrite get_all_docs_as_text_miss by done.
      destruct (fst _); [|done]. simpl. rewrite lookup_insert_eq. eauto.
Qed.

(** A call that returns leaves its result in the cache. *)
Lemma call_stores fs clock self _dir (w0 w1 : World) (out : Dict) :
  get_all_docs_as_text fs clock self _dir w0 = (Ok out, w1) →
  ∃ stored : Z, cache w1 !! key_of self _dir = Some (stored, out).
Proof.
  intros Hcall.
  destruct (lookup_valid (60 * 60) (at_lookup clock) (cache w0)
              (key_of self _dir)) as [data|] eqn:Hvalid.
  - unfold get_all_docs_as_text in Hcall.
    rewrite (filecache_hit _ _ _ _ _ _ data) in Hcall by done.
    injection Hcall as -> ->.
    apply lookup_valid_Some in Hvalid as (stored & Hdb & _). eauto.
  - rewrite get_all_docs_as_text_miss in Hcall by done.
    destruct (fst _) as [retval|e]; [|done].
    injection Hcall as -> <-. exists (at_store clock).
    simpl. apply lookup_insert_eq.
Qed.

Lemma calls_of_other_keys_keep (key : Key) (w w' : World) :
  calls_of_other_keys key w w' → cache w' !! key = cache w !! key.
Proof.
  induction 1 as [w|fs clock self _dir w w' Hne _ IH]; [done|].
  by rewrite IH, call_keeps_other_keys.
Qed.

(** X16: the cache is per key. After a call has returned [out], any
    number of calls under other keys, whether they hit, compute or raise,
    leave that entry alone: a call under the first key that comes less
    than 3600 seconds after the entry was stored still returns [out],
    without running the method. *)
Theorem entry_survives_other_calls fs1 clock1 self _dir
    (w0 w1 w2 : World) (out : Dict) :
  get_all_docs_as_text fs1 clock1 self _dir w0 = (Ok out, w1) →
  calls_of_other_keys (key_of self _dir) w1 w2 →
  ∃ stored : Z,
    cache w1 !! key_of self _dir = Some (stored, out) ∧
    ∀ fs2 clock2, (at_lookup clock2 - stored < 3600)%Z →
      get_all_docs_as_text fs2 clock2 self _dir w2 = (Ok out, w2).
Proof.
  intros [stored Hentry]%call_stores Hcalls.
  exists stored. split; [done|]. intros fs2 clock2 Hfresh.
  apply filecache_hit, lookup_valid_Some. exists stored.
  split; [|lia]. by rewrite (calls_of_other_keys_keep _ _ _ Hcalls).
Qed.

(** X23: the key of the cache holds the instance and the argument as they
    were given, not the directory they stand for. A result computed for an
    extractor made with a directory and called without one is not found by
    an extractor made without a directory and called with the same one:
    that call runs the method again, on the same directory. *)
Theorem default_and_explicit_directory_do_not_share fs1 clock1 (d : Path)
    (w0 w1 : World) (out : Dict) :
  cache w0 = ∅ →
  get_all_docs_as_text fs1 clock1 (init (Some d)) None w0 = (Ok out, w1) →
  (∀ fs w, get_all_docs_as_text_body fs (init None) (Some d) w
           = get_all_docs_as_text_body fs (init (Some d)) None w) ∧
  ∀ fs2 clock2,
    get_all_docs_as_text fs2 clock2 (init None) (Some d) w1 =
      match fst (get_all_docs_as_text_body fs2 (init None) (Some d) w1) with
      | Ok retval =>
          (Ok retval,
           with_cache (<[key_of (init None) (Some d) := (at_store clock2, retval)]>
                         (cache w1)) w1)
      | Raise e => (Raise e, w1)
      end.
Proof.
  intros Hempty Hcall. split; [reflexivity|]. intros fs2 clock2.
  apply get_all_docs_as_text_miss. unfold lookup_valid.
  assert (Hw1 : w1 = snd (get_all_docs_as_text fs1 clock1 (init (Some d)) None w0))
    by (by rewrite Hcall).
  rewrite Hw1, call_keeps_other_keys, Hempty, lookup_empty; [done|].
  unfold key_of. simpl. congruence.
Qed.

End CacheMore.

(** * Properties of the audit runner *)

Lemma py_index_in_range {A} (l : list A) (i : Z) (x : A) :
  (- Z.of_nat (length l) ≤ i < Z.of_nat (length l))%Z →
  l !! Z.to_nat (i `mod` Z.of_nat (length l)) = Some x →
  py_index l i = Ok x.
Proof.
  intros Hrange Hx. unfold py_index. cbv zeta.
  assert (Hj : (if (i <? 0)%Z then (i + Z.of_nat (length l))%Z else i)
               = (i `mod` Z.of_nat (length l))%Z).
  { destruct (Z.ltb_spec i 0).
    - apply Z.mod_unique with (-1)%Z; lia.
    - symmetry. apply Z.mod_small. lia. }
  rewrite Hj.
  assert (0 ≤ i `mod` Z.of_nat (length l) < Z.of_nat (length l))%Z
    as [H0 H1] by (apply Z.mod_pos_bound; lia).
  apply Z.leb_le in H0. apply Z.ltb_lt in H1. by rewrite H0, H1, Hx.
Qed.

Lemma py_index_out_of_range {A} (l : list A) (i : Z) :
  (Z.of_nat (length l) ≤ i ∨ i < - Z.of_nat (length l))%Z →
  py_index l i = Raise (IndexError "list index out of range").
Proof.
  intros Hout. unfold py_index. cbv zeta.
  destruct (Z.ltb_spec i 0).
  - assert (H0 : (0 <=? i + Z.of_nat (length l))%Z = false)
      by (apply Z.leb_gt; lia).
    by rewrite H0.
  - assert (H1 : (i <? Z.of_nat (length l))%Z = false)
      by (apply Z.ltb_ge; lia).
    by rewrite H1, andb_false_r.
Qed.

Section RunnerProperties.
Context `{L : ChatClient}.

(** X17: the index 0 does not select the first test: [main] tests the
    value of [test_to_run], and 0 counts as no value, so every test is run
    as when no index is given. The first test alone is run by the negative
    index that counts the whole list from its end. *)
Theorem index_zero_runs_every_test (self : O1AuditTestRunner)
    (docs_to_audit : Docs) (first : PolicyContentImproved)
    (others : list PolicyContentImproved) :
  main self docs_to_audit (Some 0%Z) (Some (first :: others))
    = main self docs_to_audit None (Some (first :: others)) ∧
  main self docs_to_audit (Some 0%Z) (Some (first :: others))
    = Ok (map (run_testing_script docs_to_audit) (first :: others)) ∧
  main self docs_to_audit
       (Some (- Z.of_nat (length (first :: others)))%Z)
       (Some (first :: others))
    = Ok [run_testing_script docs_to_audit first].
Proof.
  split; [reflexivity|]. split; [reflexivity|].
  unfold main. cbv zeta.
  assert (Htruthy : truthy (Some (- Z.of_nat (length (first :: others)))%Z) = true).
  { unfold truthy. apply negb_true_iff, Z.eqb_neq. simpl length. lia. }
  rewrite Htruthy. cbn [default from_option id].
  rewrite (py_index_in_range _ _ first); [reflexivity| |].
  - simpl length. lia.
  - replace (_ `mod` _)%Z with 0%Z; [reflexivity|].
    apply Z.mod_unique with (-1)%Z; simpl length; lia.
Qed.

(** X18: an index other than 0 within the bounds of the list, counted
    from the start or, when negative, from the end, runs that one test and
    nothing else. *)
Theorem nonzero_index_runs_one_test (self : O1AuditTestRunner)
    (docs_to_audit : Docs) (expanded_policies : list PolicyContentImproved)
    (i : Z) (test : PolicyContentImproved) :
  i ≠ 0%Z →
  (- Z.of_nat (length expanded_policies) ≤ i < Z.of_nat (length expanded_policies))%Z →
  expanded_policies !! Z.to_nat (i `mod` Z.of_nat (length expanded_policies)) = Some test →
  main self docs_to_audit (Some i) (Some expanded_policies)
    = Ok [run_testing_script docs_to_audit test].
Proof.
  intros Hnz Hrange Htest. unfold main. cbv zeta.
  assert (Htruthy : truthy (Some i) = true)
    by (by apply negb_true_iff, Z.eqb_neq).
  rewrite Htruthy. cbn [default from_option id].
  by rewrite (py_index_in_range _ _ test).
Qed.

(** X19: an index other than 0 outside the bounds makes [main] raise
    [IndexError]; no test is run. *)
Theorem index_out_of_range_raises (self : O1AuditTestRunner)
    (docs_to_audit : Docs) (expanded_policies : list PolicyContentImproved)
    (i : Z) :
  i ≠ 0%Z →
  (Z.of_nat (length expanded_policies) ≤ i
   ∨ i < - Z.of_nat (length expanded_policies))%Z →
  main self docs_to_audit (Some i) (Some expanded_policies)
    = Raise (IndexError "list index out of range").
Proof.
  intros Hnz Hout. unfold main. cbv zeta.
  assert (Htruthy : truthy (Some i) = true)
    by (by apply negb_true_iff, Z.eqb_neq).
  rewrite Htruthy. cbn [default from_option id].
  by rewrite py_index_out_of_range.
Qed.

(** X20: a failure of the endpoint does not stop an audit. Without an
    index [main] returns one result per test, in the order of the tests,
    each with the policy and the routine of its test; a test on whose
    prompt the endpoint raises gets [None] as its execution. *)
Theorem endpoint_failure_gives_none (self : O1AuditTestRunner)
    (docs_to_audit : Docs) (expanded_policies : list PolicyContentImproved) :
  ∃ results,
    main self docs_to_audit None (Some expanded_policies) = Ok results ∧
    length results = length expanded_policies ∧
    ∀ i test, expanded_policies !! i = Some test →
      ∃ r, results !! i = Some r ∧
           res_policy r = imp_policy test ∧
           res_routine r = imp_routine test ∧
           ∀ e,
             chat_completions_create MODEL
               [mk_message "user"
                  (audit_content (str_of_optional (imp_routine test))
                     (str_of_docs docs_to_audit))] = Raise e →
             res_execution r = None.
Proof.
  eexists. split; [reflexivity|]. split; [apply length_map|].
  intros i test Htest. eexists. split.
  - rewrite list_lookup_fmap, Htest. reflexivity.
  - split; [done|]. split; [done|]. intros e He.
    unfold run_testing_script, run_audit. cbn [res_execution]. by rewrite He.
Qed.

(** X21: a run from the raw test scripts, with no index and no expanded
    policies given, returns one result per raw script, in order and under
    its policy name, whatever the endpoint answers or raises; the routine
    of a script whose conversion raised is [None]. *)
Theorem full_run_covers_every_script (self : O1AuditTestRunner)
    (docs_to_audit : Docs) :
  ∃ results,
    main self docs_to_audit None None = Ok results ∧
    res_policy <$> results = raw_policy <$> raw_test_policies self ∧
    ∀ i script, raw_test_policies self !! i = Some script →
      ∃ r, results !! i = Some r ∧
           ∀ e,
             chat_completions_create MODEL
               [mk_message "user"
                  (conversion_content (str_of_list (raw_content script)))] = Raise e →
             res_routine r = None.
Proof.
  eexists. split; [reflexivity|]. split.
  - unfold expand_query_using_o1. rewrite <- !list_fmap_compose.
    by apply list_fmap_ext.
  - intros i script Hscript. eexists. split.
    + unfold expand_query_using_o1.
      rewrite !list_lookup_fmap, Hscript. reflexivity.
    + intros e He. cbn [run_testing_script res_routine].
      unfold process_testing_script, generate_routine. cbn [imp_routine].
      by rewrite He.
Qed.

(** X22: the prompt of an audit holds, as they are, the instructions to
    the auditor, the routine of the test and the text of the documents; a
    routine that is missing is sent as the word None. *)
Theorem audit_prompt_holds_its_parts (tests : option string) (document : string) :
  contains AUDITOR_PROMPT (audit_content (str_of_optional tests) document) = true ∧
  contains (str_of_optional tests)
           (audit_content (str_of_optional tests) document) = true ∧
  contains document (audit_content (str_of_optional tests) document) = true ∧
  (tests = None → contains "None" (audit_content (str_of_optional tests) document) = true).
Proof.
  assert (Htests : contains (str_of_optional tests)
                     (audit_content (str_of_optional tests) document) = true).
  { unfold audit_content.
    rewrite <- (append_assoc _ AUDITOR_PROMPT), <- (append_assoc _ _ (str_of_optional tests +:+ _)).
    apply contains_middle. }
  split; [apply contains_middle|]. split; [exact Htests|]. split.
  - unfold audit_content.
    rewrite <- (append_assoc _ AUDITOR_PROMPT),
      <- (append_assoc _ _ (str_of_optional tests +:+ _)),
      <- (append_assoc _ (str_of_optional tests)),
      <- (append_assoc _ _ (document +:+ _)).
    apply contains_middle.
  - intros ->. exact Htests.
Qed.

End RunnerProperties.

(** ** The further properties on sample documents *)

Section MoreSamples.
Import Stub.
Local Existing Instance collaborators.

Lemma identify_file_type_closed_witness :
  identify_file_type report = Ok CSV ∧
  is_file report = true ∧ CSV ∈ [PDF; IMAGE; DOCX; TXT; EXCEL; CSV].
Proof.
  split; [reflexivity|].
  apply (identify_file_type_closed report CSV). reflexivity.
Defined.

Lemma store_filter_ignores_case_witness :
  lower "Store" = "store" ∧
  contains "Store" (path_str (ref_path Faulty.ds_store)) = true ∧
  Faulty.ds_store ∉ sample_files (mount data Faulty.tree_with_ds_store) data.
Proof.
  split; [reflexivity|]. split; [reflexivity|].
  apply (store_filter_ignores_case _ data Faulty.ds_store "Store");
    reflexivity.
Defined.

Lemma nothing_to_walk_gives_empty_witness :
  mount data tree_with_readme Faulty.other = None ∧
  get_all_docs_as_text (mount data tree_with_readme) (mk_clock 0 1)
    (init None) (Some Faulty.other) empty_world
    = (Ok ∅, mk_world ∅ {[ (None, Some Faulty.other) := (1%Z, ∅) ]}).
Proof.
  split; [reflexivity|].
  rewrite (nothing_to_walk_gives_empty (mount data tree_with_readme)
             (mk_clock 0 1) (init None) Faulty.other empty_world).
  - vm_compute; reflexivity.
  - left. reflexivity.
  - reflexivity.
Defined.

Lemma store_in_directory_path_gives_empty_witness :
  contains "store" (lower (path_str Faulty.datastore)) = true ∧
  fst (get_all_docs_as_text (mount Faulty.datastore tree_with_readme)
         (mk_clock 0 1) (init None) (Some Faulty.datastore) empty_world)
    = Ok ∅.
Proof.
  split; [reflexivity|].
  rewrite (store_in_directory_path_gives_empty
             (mount Faulty.datastore tree_with_readme) (mk_clock 0 1)
             (init None) Faulty.datastore empty_world);
    reflexivity.
Defined.

Lemma dotted_directory_aborts_witness :
  is_file Faulty.release = false ∧
  ∃ e, get_all_docs_as_text (mount data Faulty.tree_with_release)
         (mk_clock 0 1) (init None) (Some data) empty_world
       = (Raise e, empty_world).
Proof.
  split; [reflexivity|].
  apply (dotted_directory_aborts (mount data Faulty.tree_with_release)
           (mk_clock 0 1) (init None) data Faulty.release empty_world).
  - split; [|split; vm_compute; reflexivity].
    apply list_elem_of_In. vm_compute. auto.
  - reflexivity.
  - reflexivity.
Defined.

Lemma last_file_of_a_name_wins_witness :
  get_text_from_docs ([Faulty.twin_a] ++ Faulty.twin_b :: [report]) empty_world
    = (Ok (<["x.csv" := "id,name" +:+ nl +:+ "2,bob"]> report_only), empty_world) ∧
  ∃ text,
    fst (extract_text Faulty.twin_b empty_world) = Ok text ∧
    (<["x.csv" := "id,name" +:+ nl +:+ "2,bob"]> report_only : Dict)
      !! ref_name Faulty.twin_b = Some text.
Proof.
  split; [vm_compute; reflexivity|].
  apply (last_file_of_a_name_wins [Faulty.twin_a] [report] Faulty.twin_b
           _ empty_world empty_world).
  - vm_compute; reflexivity.
  - intros g ->%list_elem_of_singleton. vm_compute. discriminate.
Defined.

Lemma distinct_names_keep_every_file_witness :
  NoDup (ref_name <$> [Faulty.twin_a; report]) ∧
  size (<["x.csv" := "id,name" +:+ nl +:+ "1,ann"]> report_only : Dict) = 2.
Proof.
  split; [vm_compute; repeat constructor; set_solver|].
  apply (distinct_names_keep_every_file [Faulty.twin_a; report]
           _ empty_world empty_world).
  - vm_compute; repeat constructor; set_solver.
  - vm_compute; reflexivity.
Defined.

Lemma log_of_a_run_that_returns_witness :
  get_text_from_docs [report] empty_world = (Ok report_only, empty_world) ∧
  get_text_from_docs_logged [report] (empty_world, [])
    = (Ok report_only,
       (empty_world, ["Working on: report.csv"; "Done: report.csv"])).
Proof.
  split; [vm_compute; reflexivity|].
  apply (log_of_a_run_that_returns [report] report_only empty_world
           empty_world []).
  vm_compute; reflexivity.
Defined.

Lemma log_names_the_failing_file_witness :
  fst (extract_text ledger empty_world) = Raise parser_error ∧
  get_text_from_docs_logged ([report] ++ ledger :: [scan]) (empty_world, [])
    = (Raise parser_error,
       (empty_world,
        ["Working on: report.csv"; "Done: report.csv"; "Working on: ledger.csv"])).
Proof.
  split; [vm_compute; reflexivity|].
  apply (log_names_the_failing_file [report] [scan] ledger parser_error
           empty_world []).
  - constructor; [|constructor]. exists report_text. vm_compute; reflexivity.
  - vm_compute; reflexivity.
Defined.

Lemma one_image_file_per_page_witness :
  tmp Faulty.page_world !! 0 = Some ∅ ∧
  ∃ files,
    tmp (snd (for_each (pdf_page 0) "" (enumerate (scan_pages : list Image))
                Faulty.page_world)) !! 0 = Some files ∧
    size files = 2.
Proof.
  split; [reflexivity|].
  destruct (one_image_file_per_page (C := collaborators) 0 scan_pages
              ["first page"; "second page"] Faulty.page_world)
    as (files & Hfiles & Hsize & _).
  - constructor; [vm_compute; reflexivity|].
    constructor; [vm_compute; reflexivity|]. constructor.
  - reflexivity.
  - exists files. split; [exact Hfiles | exact Hsize].
Defined.

Lemma docx_paragraphs_recoverable_witness :
  Document (bytes_of ("DOCX" +:+ nl +:+ "Intro" +:+ nl +:+ "Body"))
    = Ok ["Intro"; "Body"] ∧
  ∃ text,
    extract_text_from_docx Faulty.letter = Ok text ∧
    split (ascii_of_nat 10) text = ["Intro"; "Body"].
Proof.
  split; [vm_compute; reflexivity|].
  apply (docx_paragraphs_recoverable Faulty.letter
           (bytes_of ("DOCX" +:+ nl +:+ "Intro" +:+ nl +:+ "Body"))
           ["Intro"; "Body"]).
  - reflexivity.
  - vm_compute; reflexivity.
  - discriminate.
  - constructor; [reflexivity|]. constructor; [reflexivity|]. constructor.
Defined.

Lemma raising_call_changes_nothing_witness :
  fst (get_all_docs_as_text (mount data tree_with_ledger) (mk_clock 0 1)
         (init None) (Some data) empty_world) = Raise parser_error ∧
  snd (get_all_docs_as_text (mount data tree_with_ledger) (mk_clock 0 1)
         (init None) (Some data) empty_world) = empty_world.
Proof.
  split; [vm_compute; reflexivity|].
  apply (raising_call_changes_nothing (mount data tree_with_ledger)
           (mk_clock 0 1) (init None) (Some data) empty_world parser_error).
  vm_compute; reflexivity.
Defined.

Lemma entry_survives_other_calls_witness :
  get_all_docs_as_text (mount data tree_with_readme) (mk_clock 0 1)
    (init None) (Some data) empty_world
    = (Ok report_only, mk_world ∅ {[ (None, Some data) := (1%Z, report_only) ]}) ∧
  ∃ stored : Z,
    cache (mk_world ∅ {[ (None, Some data) := (1%Z, report_only) ]})
      !! key_of (init None) (Some data) = Some (stored, report_only).
Proof.
  split; [vm_compute; reflexivity|].
  destruct (entry_survives_other_calls (mount data tree_with_readme)
              (mk_clock 0 1) (init None) (Some data) empty_world
              (mk_world ∅ {[ (None, Some data) := (1%Z, report_only) ]})
              (snd (get_all_docs_as_text (mount data tree_with_readme)
                      (mk_clock 5 6) (init None) (Some Faulty.other)
                      (mk_world ∅ {[ (None, Some data) := (1%Z, report_only) ]})))
              report_only)
    as (stored & Hentry & _).
  - vm_compute; reflexivity.
  - eapply other_call; [|apply other_none]. vm_compute. discriminate.
  - exists stored. exact Hentry.
Defined.

Lemma default_and_explicit_directory_do_not_share_witness :
  cache empty_world = ∅ ∧
  get_all_docs_as_text (mount data tree_with_readme) (mk_clock 0 1)
    (init (Some data)) None empty_world
    = (Ok report_only, mk_world ∅ {[ (Some data, None) := (1%Z, report_only) ]}) ∧
  get_all_docs_as_text (mount data tree_with_readme) (mk_clock 2 3)
    (init None) (Some data)
    (mk_world ∅ {[ (Some data, None) := (1%Z, report_only) ]})
    = (Ok report_only,
       mk_world ∅ {[ (Some data, None) := (1%Z, report_only);
                     (None, Some data) := (3%Z, report_only) ]}).
Proof.
  split; [reflexivity|]. split; [vm_compute; reflexivity|].
  destruct (default_and_explicit_directory_do_not_share
              (mount data tree_with_readme) (mk_clock 0 1) data empty_world
              (mk_world ∅ {[ (Some data, None) := (1%Z, report_only) ]})
              report_only) as [_ Hagain].
  - reflexivity.
  - vm_compute; reflexivity.
  - rewrite Hagain. vm_compute; reflexivity.
Defined.

End MoreSamples.

Section FaultySamples.
Import Stub.
Local Existing Instance Faulty.collaborators.

Lemma first_failing_page_aborts_witness :
  page_ocr ("a smudge" : Image)
    = Raise (mk_exn "TesseractError" "recognition failed") ∧
  convert_pdf_to_text Faulty.smudged empty_world
    = (Raise (mk_exn "TesseractError" "recognition failed"), empty_world).
Proof.
  split; [vm_compute; reflexivity|].
  apply (first_failing_page_aborts (C := Faulty.collaborators) Faulty.smudged
           (bytes_of ("%PDF" +:+ nl +:+ "first page" +:+ nl +:+ "a smudge"
                        +:+ nl +:+ "third page"))
           ["first page"] ["third page"] "a smudge" ["first page"]).
  - reflexivity.
  - vm_compute; reflexivity.
  - constructor; [vm_compute; reflexivity|]. constructor.
  - vm_compute; reflexivity.
Defined.

Lemma first_failing_sheet_aborts_witness :
  read_excel Faulty.broken_sheets "Alpha"
    = Raise (mk_exn "ValueError" "cannot parse sheet") ∧
  convert_xlsx_to_text Faulty.broken_book
    = Raise (mk_exn "ValueError" "cannot parse sheet").
Proof.
  split; [vm_compute; reflexivity|].
  apply (first_failing_sheet_aborts (C := Faulty.collaborators)
           Faulty.broken_book
           (bytes_of ("XLSX" +:+ nl +:+ "Zeta=1 2" +:+ nl +:+ "Alpha=corrupt"
                        +:+ nl +:+ "Omega=5 6"))
           Faulty.broken_sheets ["Zeta"] ["Omega"] "Alpha" ["1 2"]).
  - reflexivity.
  - vm_compute; reflexivity.
  - vm_compute; reflexivity.
  - constructor; [vm_compute; reflexivity|]. constructor.
  - vm_compute; reflexivity.
Defined.

End FaultySamples.

Section RunnerSamples.
Local Existing Instance StubChat.client.

Lemma nonzero_index_runs_one_test_witness :
  StubChat.policies !! Z.to_nat ((-1) `mod` 3) = Some (mk_improved "Adverse" ["2a. statement"] None) ∧
  main (L := StubChat.client) (mk_runner []) StubChat.docs (Some (-1)%Z) (Some StubChat.policies)
    = Ok [run_testing_script (L := StubChat.client) StubChat.docs
            (mk_improved "Adverse" ["2a. statement"] None)].
Proof.
  split; [reflexivity|].
  apply (nonzero_index_runs_one_test (L := StubChat.client) (mk_runner []) StubChat.docs
           StubChat.policies (-1)%Z).
  - discriminate.
  - vm_compute. split; [discriminate | reflexivity].
  - reflexivity.
Defined.

Lemma index_out_of_range_raises_witness :
  (Z.of_nat (length StubChat.policies) ≤ 3)%Z ∧
  main (L := StubChat.client) (mk_runner []) StubChat.docs (Some 3%Z) (Some StubChat.policies)
    = Raise (IndexError "list index out of range").
Proof.
  split; [vm_compute; discriminate|].
  apply (index_out_of_range_raises (L := StubChat.client) (mk_runner []) StubChat.docs
           StubChat.policies 3%Z).
  - discriminate.
  - left. vm_compute. discriminate.
Defined.

End RunnerSamples.

(** * The markers of a PDF and the age of a cache entry *)

(** ** Lines *)

Lemma split_not_nil (sep : ascii) (s : string) : split sep s ≠ [].
Proof.
  destruct s as [|c s]; [done|]. cbn [split].
  destruct (Ascii.eqb c sep); [done|]. by destruct (split sep s).
Qed.

(** The lines of two texts put together with a separator between them. *)
Lemma split_app_sep (sep : ascii) (a b : string) :
  split sep (a +:+ String sep b) = split sep a ++ split sep b.
Proof.
  induction a as [|c a IH].
  - change ("" +:+ String sep b) with (String sep b).
    cbn [split]. by rewrite Ascii.eqb_refl.
  - change (String c a +:+ String sep b) with (String c (a +:+ String sep b)).
    cbn [split]. rewrite IH.
    destruct (Ascii.eqb c sep); [reflexivity|].
    pose proof (split_not_nil sep a) as Hne.
    by destruct (split sep a).
Qed.

Lemma prefix_char (c d : ascii) (s : string) :
  String.prefix (String c "") (String d s) = bool_decide (c = d).
Proof.
  cbn [String.prefix]. destruct (ascii_dec c d) as [->|Hne].
  - by rewrite prefix_empty, bool_decide_eq_true_2.
  - by rewrite bool_decide_eq_false_2.
Qed.

(** A character is in two texts put together when it is in one of them. *)
Lemma contains_char_app (c : ascii) (a b : string) :
  contains (String c "") (a +:+ b)
    = contains (String c "") a || contains (String c "") b.
Proof.
  induction a as [|d a IH]; [reflexivity|].
  change (String d a +:+ b) with (String d (a +:+ b)).
  by rewrite !contains_cons, !prefix_char, IH, orb_assoc.
Qed.

(** ** Decimal numbers *)

Lemma digits_no_newline (d : Decimal.uint) :
  contains nl (NilEmpty.string_of_uint d) = false.
Proof.
  induction d as [|d IH|d IH|d IH|d IH|d IH|d IH|d IH|d IH|d IH|d IH];
    [reflexivity|..];
    cbn [NilEmpty.string_of_uint]; rewrite contains_cons, IH; reflexivity.
Qed.

Lemma str_of_nat_no_newline (n : nat) : contains nl (str_of_nat n) = false.
Proof.
  unfold str_of_nat, NilZero.string_of_uint.
  destruct (Nat.to_uint n); [reflexivity|..]; apply digits_no_newline.
Qed.

Lemma to_uint_not_nil (n : nat) : Nat.to_uint n ≠ Decimal.Nil.
Proof.
  intros Hnil. destruct n; [done|].
  apply (f_equal Nat.of_uint) in Hnil.
  by rewrite DecimalNat.Unsigned.of_to in Hnil.
Qed.

(** The number printed into a marker reads back as that number. *)
Lemma int_of_str_of_nat (n : nat) : int_of_str (str_of_nat n) = Some n.
Proof.
  unfold int_of_str, str_of_nat.
  rewrite NilZero.usu by apply to_uint_not_nil.
  cbn [fmap option_fmap option_map]. by rewrite DecimalNat.Unsigned.of_to.
Qed.

Lemma page_marker_inj : Inj (=) (=) page_marker.
Proof.
  intros N M H. unfold page_marker in H.
  apply (inj (String.append "--- Page ")) in H.
  apply append_inj_r in H.
  apply (f_equal int_of_str) in H. rewrite !int_of_str_of_nat in H. congruence.
Qed.

Lemma page_marker_no_newline (N : nat) : contains nl (page_marker N) = false.
Proof.
  pose proof (str_of_nat_no_newline N) as Hdigits.
  unfold page_marker, nl in *.
  by rewrite !contains_char_app, Hdigits.
Qed.

(** ** Marker lines *)

Lemma occurrences_app (x : string) (l1 l2 : list string) :
  occurrences x (l1 ++ l2) = occurrences x l1 + occurrences x l2.
Proof. unfold occurrences. by rewrite List.filter_app, length_app. Qed.

Lemma occurrences_none (x : string) (ls : list string) :
  (∀ l, l ∈ ls → l ≠ x) → occurrences x ls = 0.
Proof.
  unfold occurrences. induction ls as [|l ls IH]; intros Hno; [reflexivity|].
  cbn [List.filter].
  destruct (String.eqb_spec x l) as [->|_].
  - exfalso. apply (Hno l); [left|done].
  - apply IH. intros l' Hl'. apply Hno. by right.
Qed.

Lemma occurrences_marker (N M : nat) :
  occurrences (page_marker N) [page_marker M] = if decide (M = N) then 1 else 0.
Proof.
  unfold occurrences. cbn [List.filter].
  destruct (String.eqb_spec (page_marker N) (page_marker M)) as [Heq|Hne].
  - apply page_marker_inj in Heq. by rewrite decide_True.
  - rewrite decide_False; [done|]. by intros ->.
Qed.

(** The lines of the blocks of the pages from the page of index [k] on. *)
Lemma lines_of_blocks (texts : list string) : ∀ k,
  split (ascii_of_nat 10) (concat_all (imap (λ i, page_block (k + i)) texts))
    = List.concat (imap (λ i text, page_marker (k + i + 1)
                                    :: split (ascii_of_nat 10) text) texts)
      ++ [""].
Proof.
  induction texts as [|text texts IH]; intros k; [reflexivity|].
  rewrite !imap_cons. unfold concat_all. cbn [foldr List.concat].
  fold (concat_all (imap ((λ i, page_block (k + i)) ∘ S) texts)).
  rewrite (imap_ext _ (λ i, page_block (S k + i)))
    by (intros i x _; simpl; f_equal; lia).
  rewrite (imap_ext ((λ i text0, page_marker (k + i + 1)
                                   :: split (ascii_of_nat 10) text0) ∘ S)
             (λ i text0, page_marker (S k + i + 1)
                           :: split (ascii_of_nat 10) text0))
    by (intros i x _; simpl; do 2 f_equal; lia).
  rewrite Nat.add_0_r.
  set (rest := concat_all _).
  assert (Hblock : page_block k text +:+ rest
                   = page_marker (k + 1)
                       +:+ String (ascii_of_nat 10)
                             (text +:+ String (ascii_of_nat 10) rest)).
  { unfold page_block, page_marker, nl.
    rewrite !append_assoc. reflexivity. }
  rewrite Hblock, split_app_sep, split_app_sep.
  rewrite (split_whole _ _ (page_marker_no_newline (k + 1))).
  subst rest. rewrite IH. cbn [app]. by rewrite <- app_assoc.
Qed.

Lemma occurrences_of_blocks (N : nat) (texts : list string) : ∀ k,
  (∀ text l, text ∈ texts → l ∈ split (ascii_of_nat 10) text → l ≠ page_marker N) →
  occurrences (page_marker N)
    (List.concat (imap (λ i text, page_marker (k + i + 1)
                                   :: split (ascii_of_nat 10) text) texts))
    = if decide (k < N ≤ k + length texts) then 1 else 0.
Proof.
  induction texts as [|text texts IH]; intros k Hno.
  - cbn. rewrite decide_False; [done | lia].
  - rewrite imap_cons. cbn [List.concat].
    rewrite (imap_ext _ (λ i text0, page_marker (S k + i + 1)
                                      :: split (ascii_of_nat 10) text0))
      by (intros i x _; simpl; do 2 f_equal; lia).
    change (page_marker (k + 0 + 1) :: split (ascii_of_nat 10) text)
      with ([page_marker (k + 0 + 1)] ++ split (ascii_of_nat 10) text).
    rewrite !occurrences_app, occurrences_marker.
    rewrite (occurrences_none _ (split (ascii_of_nat 10) text))
      by (intros l Hl; apply (Hno text l); [left | done]).
    rewrite IH by (intros t l Ht; apply Hno; by right).
    cbn [length]. repeat case_decide; lia.
Qed.

Section Markers.
Context `{C : Collaborators}.

(** C5 (amended): when a PDF rasterizes to n pages and OCR gives a text
    for each, the lines of the extracted text are, page after page in
    page order, the marker line "--- Page N ---" of the page and then the
    lines of the OCR text of that page, with an empty last line; N is the
    number of the page from 1, printed in decimal (it reads back as that
    number). The OCR text is passed on as it is: when no line of it is
    itself a marker line, each of the markers of the pages 1 to n is a
    line of the text exactly once, and no other marker is. *)
Theorem convert_pdf_to_text_markers (pdf_path : FileRef) (content : bytes)
    (pages : list Image) (texts : list string) (w : World) :
  read_bytes pdf_path = Ok content →
  convert_from_path content 300 = Ok pages →
  Forall2 (λ page text, page_ocr page = Ok text) pages texts →
  ∃ extracted_text,
    fst (convert_pdf_to_text pdf_path w) = Ok extracted_text ∧
    split (ascii_of_nat 10) extracted_text
      = List.concat
          (imap (λ i text,
                   ("--- Page " +:+ str_of_nat (i + 1) +:+ " ---")
                     :: split (ascii_of_nat 10) text) texts)
        ++ [""] ∧
    (∀ N, int_of_str (str_of_nat N) = Some N) ∧
    ((∀ text l N, text ∈ texts → l ∈ split (ascii_of_nat 10) text →
                  l ≠ "--- Page " +:+ str_of_nat N +:+ " ---") →
     ∀ N, occurrences ("--- Page " +:+ str_of_nat N +:+ " ---")
            (split (ascii_of_nat 10) extracted_text)
          = if decide (1 ≤ N ≤ length pages) then 1 else 0).
Proof.
  intros Hread Hpages Hocr. exists (concat_all (imap page_block texts)).
  split; [by eapply convert_pdf_to_text_blocks|].
  pose proof (lines_of_blocks texts 0) as Hlines. cbn [Nat.add] in Hlines.
  split; [exact Hlines|]. split; [apply int_of_str_of_nat|].
  intros Hno N. fold (page_marker N).
  change (imap (λ i : nat, page_block i) texts) with (imap page_block texts) in Hlines.
  rewrite Hlines, occurrences_app.
  pose proof (occurrences_of_blocks N texts 0) as Hblocks.
  cbn [Nat.add] in Hblocks. rewrite Hblocks by (intros; by eapply Hno).
  rewrite (occurrences_none _ [""]).
  - rewrite (Forall2_length _ _ _ Hocr).
    repeat case_decide; lia.
  - intros l ->%list_elem_of_singleton. unfold page_marker. discriminate.
Qed.

End Markers.

Section MarkerSamples.
Import Stub.
Local Existing Instance collaborators.

(** C5 (as stated, refuted): a PDF of one page whose OCR text is the line
    "--- Page 1 ---": the extracted text holds that marker twice. *)
Lemma marker_in_ocr_text_is_repeated :
  convert_from_path (bytes_of ("%PDF" +:+ nl +:+ "--- Page 1 ---")) 300
    = Ok (["--- Page 1 ---"] : list Image) ∧
  page_ocr ("--- Page 1 ---" : Image) = Ok "--- Page 1 ---" ∧
  fst (convert_pdf_to_text Edge.echo empty_world) = Ok Edge.echo_text ∧
  split (ascii_of_nat 10) Edge.echo_text
    = ["--- Page 1 ---"; "--- Page 1 ---"; ""] ∧
  occurrences "--- Page 1 ---" (split (ascii_of_nat 10) Edge.echo_text) = 2.
Proof. repeat split; vm_compute; reflexivity. Qed.

Lemma convert_pdf_to_text_markers_witness :
  convert_from_path (bytes_of ("%PDF" +:+ nl +:+ "first page" +:+ nl +:+ "second page"))
    300 = Ok (scan_pages : list Image) ∧
  fst (convert_pdf_to_text scan empty_world) = Ok Edge.scan_text ∧
  split (ascii_of_nat 10) Edge.scan_text
    = ["--- Page 1 ---"; "first page"; "--- Page 2 ---"; "second page"; ""] ∧
  occurrences "--- Page 2 ---" (split (ascii_of_nat 10) Edge.scan_text) = 1.
Proof.
  split; [vm_compute; reflexivity|].
  destruct (convert_pdf_to_text_markers (C := collaborators) scan
              (bytes_of ("%PDF" +:+ nl +:+ "first page" +:+ nl +:+ "second page"))
              scan_pages ["first page"; "second page"] empty_world)
    as (text & Htext & Hlines & _ & Hcount).
  - reflexivity.
  - vm_compute; reflexivity.
  - constructor; [vm_compute; reflexivity|].
    constructor; [vm_compute; reflexivity|]. constructor.
  - assert (Hscan : text = Edge.scan_text).
    { assert (H : fst (convert_pdf_to_text scan empty_world) = Ok Edge.scan_text)
        by (vm_compute; reflexivity).
      rewrite Htext in H. by injection H. }
    subst text. split; [exact Htext|]. split; [exact Hlines|].
    apply (Hcount) with (N := 2).
    intros t l N Ht Hl.
    assert (Hfirst : ∃ c rest, l = String c rest ∧ c ≠ "-"%char).
    { apply list_elem_of_In in Ht. destruct Ht as [<-|[<-|[]]];
        apply list_elem_of_In in Hl; destruct Hl as [<-|[]];
        eexists _, _; (split; [reflexivity | discriminate]). }
    destruct Hfirst as (c & rest & -> & Hc).
    intros [= Heq _]. by apply Hc.
Defined.

(** C8 (as stated, refuted): a result is stored at the time 1; a call at
    the time 3000 is served from the cache; a call at the time 4000, 1000
    seconds after the call before it and with the same key, finds the entry
    older than an hour, runs the extraction again and returns another
    result, the directory having gained a file. *)
Lemma later_call_within_the_hour_recomputes :
  get_all_docs_as_text (mount data tree_with_readme) (mk_clock 0 1)
    (init None) (Some data) empty_world
    = (Ok report_only, Edge.after_first_call) ∧
  get_all_docs_as_text (mount data tree_one_more) (mk_clock 3000 3001)
    (init None) (Some data) Edge.after_first_call
    = (Ok report_only, Edge.after_first_call) ∧
  get_all_docs_as_text (mount data tree_one_more) (mk_clock 4000 4001)
    (init None) (Some data) Edge.after_first_call
    = (Ok Edge.report_and_late, Edge.after_third_call) ∧
  (4000 - 3000 < 3600)%Z ∧
  Edge.report_and_late ≠ report_only.
Proof.
  repeat split; try (vm_compute; reflexivity).
  intros Heq. apply (f_equal (λ d : Dict, d !! "late.csv")) in Heq.
  vm_compute in Heq. discriminate.
Qed.

End MarkerSamples.
